(** * The NetBox token resource of the Terraform provider

    A shallow embedding of [netbox/resource_netbox_token.go]: the four
    lifecycle callbacks of the [netbox_token] resource (create, read,
    update, delete), the local resource data they mutate, and the
    generated NetBox client they call.

    Layout:
    - [strconv]: the two functions of Go's [strconv] package that the
      callbacks use on the resource ID;
    - the models of the generated client ([Token], [WritableToken]) and
      the errors a call can return;
    - the resource data of the Terraform SDK, as the record of the value
      each attribute holds;
    - a state monad threading the resource data, the remote service and
      the log of exchanges with it;
    - the four callbacks, transcribed statement by statement;
    - an in-memory stand-in for the remote service, to run the callbacks;
    - facts about [strconv], the callbacks case by case, and the
      properties of the resource: what a not-found answer does, which
      errors surface, how many exchanges an operation makes, what an
      update sends, what a read writes back, and what becomes of the
      resource ID and of the key. *)

From Stdlib Require Import ZArith String Ascii List Bool Lia.
Import ListNotations.

Local Open Scope Z_scope.

(* ================================================================= *)
(** ** Go's [strconv], as used on resource IDs *)

(** The callbacks call [strconv.ParseInt(s, 10, 64)] and
    [strconv.FormatInt(i, 10)] only, so base 10 and bit size 64 are fixed
    below.  Go strings are byte sequences; so are Rocq's. *)

Module strconv.

  (** The two sentinel errors a [*NumError] carries. *)
Inductive NumError : Type :=
  | ErrSyntax
  | ErrRange.

Definition maxUint64 : Z := 2 ^ 64 - 1.

  (** Conversions [uint64(x)] and [int64(x)]: wrap-around. *)
Definition uint64 (x : Z) : Z := x mod 2 ^ 64.
Definition int64 (x : Z) : Z := (x + 2 ^ 63) mod 2 ^ 64 - 2 ^ 63.

Definition byte_val (c : ascii) : Z := Z.of_N (N_of_ascii c).
Definition byte_of (n : Z) : ascii := ascii_of_N (Z.to_N n).

  (** [lower(c)]: [c | ('x' - 'X')]. *)
Definition lower (c : Z) : Z := Z.lor c 32.

  (** The [switch] of the digit loop of [ParseUint]; [None] is its
      [default] branch (the underscore case needs base 0). *)
Definition digit_val (c : ascii) : option Z :=
    let n := byte_val c in
    if (48 <=? n) && (n <=? 57) then Some (n - 48)
    else if (97 <=? lower n) && (lower n <=? 122) then Some (lower n - 97 + 10)
    else None.

  (** Smallest number such that [cutoff * 10 > maxUint64]. *)
Definition cutoff10 : Z := maxUint64 / 10 + 1.

  (** The loop [for _, c := range []byte(s)] of [ParseUint], from the
      running value [n].  A range error returns at once, before the
      remaining bytes are looked at. *)
Fixpoint ParseUint_loop (s : string) (n : Z) : Z * option NumError :=
    match s with
    | EmptyString => (n, None)
    | String c s' =>
        match digit_val c with
        | None => (0, Some ErrSyntax)
        | Some d =>
            if d >=? 10 then (0, Some ErrSyntax)
            else if n >=? cutoff10 then (maxUint64, Some ErrRange)
            else
              let n10 := uint64 (n * 10) in
              let n1 := uint64 (n10 + d) in
              if (n1 <? n10) || (n1 >? maxUint64) then (maxUint64, Some ErrRange)
              else ParseUint_loop s' n1
        end
    end.

Definition ParseUint (s : string) : Z * option NumError :=
    match s with
    | EmptyString => (0, Some ErrSyntax)
    | _ => ParseUint_loop s 0
    end.

  (** [ParseInt(s, 10, 64)]: the value and the error, as Go returns both. *)
Definition ParseInt (s : string) : Z * option NumError :=
    match s with
    | EmptyString => (0, Some ErrSyntax)
    | String c rest =>
        let neg := Ascii.eqb c "-" in
        let s1 := if Ascii.eqb c "+" || Ascii.eqb c "-" then rest else s in
        match ParseUint s1 with
        | (_, Some ErrSyntax) => (0, Some ErrSyntax)
        | (un, _) =>
            let cutoff := 2 ^ 63 in
            if negb neg && (un >=? cutoff) then (cutoff - 1, Some ErrRange)
            else if neg && (un >? cutoff) then (- cutoff, Some ErrRange)
            else
              let n := int64 un in
              (if neg then int64 (- n) else n, None)
        end
    end.

  (** The digit loop of [formatBits]: the decimal digits of [u] are put
      in front of [acc], least significant first.  Twenty digits hold
      every [uint64], which bounds the loop. *)
Fixpoint formatBits_loop (fuel : nat) (u : Z) (acc : string) : string :=
    match fuel with
    | O => acc
    | S fuel' =>
        let q := u / 10 in
        let acc' := String (byte_of (48 + (u - q * 10))) acc in
        if q =? 0 then acc' else formatBits_loop fuel' q acc'
    end.

  (** [FormatInt(i, 10)]. *)
Definition FormatInt (i : Z) : string :=
    let neg := i <? 0 in
    let u := uint64 i in
    let u := if neg then uint64 (- u) else u in
    let s := formatBits_loop 20 u EmptyString in
    if neg then String "-" s else s.

End strconv.

(* ================================================================= *)
(** ** The generated client: models and errors *)

(** Go's [error] values that reach the callbacks.  The generated client
    turns every response that is not the documented success into the
    operation's [...Default] value, which carries the HTTP status code;
    anything else (transport failures, [strfmt] parse errors) is an
    opaque error with its message. *)
Inductive error : Type :=
| UsersTokensCreateDefault (_statusCode : Z)
| UsersTokensReadDefault (_statusCode : Z)
| UsersTokensUpdateDefault (_statusCode : Z)
| UsersTokensDeleteDefault (_statusCode : Z)
| errorString (msg : string).

(** [diag.Diagnostics], as the callbacks build it: [nil], or
    [diag.FromErr(err)]. *)
Module diag.
Inductive Diagnostics : Type :=
  | nil
  | FromErr (err : error).
End diag.

(** [models.IPNetwork] is [interface{}]; the schema makes its values
    CIDR strings. *)
Definition IPNetwork : Type := string.

Module NestedUser.
Record t : Type := mk { ID : Z; Username : string }.
End NestedUser.

(** [models.Token], the payload of a response.  [DateTime] stands for
    [strfmt.DateTime]; a Go pointer is an [option]. *)
Module Token.
Record t {DateTime : Type} : Type := mk {
    ID : Z;
    Key : string;
    User : option NestedUser.t;
    AllowedIps : list IPNetwork;
    WriteEnabled : bool;
    LastUsed : option DateTime;
    Expires : option DateTime;
    Description : string
  }.
Arguments t : clear implicits.
Arguments mk {DateTime}.
End Token.

(** [models.WritableToken], the body of a create or update request. *)
Module WritableToken.
Record t {DateTime : Type} : Type := mk {
    User : option Z;
    Key : string;
    AllowedIps : list IPNetwork;
    WriteEnabled : bool;
    Description : string;
    Expires : option DateTime
  }.
Arguments t : clear implicits.
Arguments mk {DateTime}.

  (** [models.WritableToken{}]: every field at its zero value. *)
Definition zero {DateTime} : t DateTime :=
    mk None EmptyString [] false EmptyString None.

  (** Field assignments [data.F = v]. *)
Definition with_User {DateTime} (v : option Z) (w : t DateTime) : t DateTime :=
    mk v (Key w) (AllowedIps w) (WriteEnabled w) (Description w) (Expires w).
Definition with_Key {DateTime} (v : string) (w : t DateTime) : t DateTime :=
    mk (User w) v (AllowedIps w) (WriteEnabled w) (Description w) (Expires w).
Definition with_AllowedIps {DateTime} (v : list IPNetwork) (w : t DateTime) : t DateTime :=
    mk (User w) (Key w) v (WriteEnabled w) (Description w) (Expires w).
Definition with_WriteEnabled {DateTime} (v : bool) (w : t DateTime) : t DateTime :=
    mk (User w) (Key w) (AllowedIps w) v (Description w) (Expires w).
Definition with_Description {DateTime} (v : string) (w : t DateTime) : t DateTime :=
    mk (User w) (Key w) (AllowedIps w) (WriteEnabled w) v (Expires w).
Definition with_Expires {DateTime} (v : option DateTime) (w : t DateTime) : t DateTime :=
    mk (User w) (Key w) (AllowedIps w) (WriteEnabled w) (Description w) v.
End WritableToken.

(* ================================================================= *)
(** ** The resource data of the SDK *)

(** [schema.ResourceData] for the schema of [resourceNetboxToken]: the
    resource ID and, for each attribute, the value last written to it
    (what [d.Get] returns).  The callbacks drop the error [d.Set]
    returns.  A [d.Set] whose value has the type the schema declares
    for the attribute stores that value; the one [d.Set] whose value
    has another type is that of [last_used], see [Set_last_used].
    [user_id] is a Go [int], converted to and from [int64] without loss. *)
Module ResourceData.
Record t {DateTime : Type} : Type := mk {
    Id : string;
    user_id : Z;
    key : string;
    allowed_ips : list string;
    write_enabled : bool;
    last_used : string;
    expires : string;
    description : string
  }.
Arguments t : clear implicits.
Arguments mk {DateTime}.

Section Setters.
Context {DateTime : Type}.
Implicit Type rd : t DateTime.

Definition SetId (v : string) rd : t DateTime :=
      mk v (user_id rd) (key rd) (allowed_ips rd) (write_enabled rd)
         (last_used rd) (expires rd) (description rd).
Definition Set_user_id (v : Z) rd : t DateTime :=
      mk (Id rd) v (key rd) (allowed_ips rd) (write_enabled rd)
         (last_used rd) (expires rd) (description rd).
Definition Set_key (v : string) rd : t DateTime :=
      mk (Id rd) (user_id rd) v (allowed_ips rd) (write_enabled rd)
         (last_used rd) (expires rd) (description rd).
Definition Set_allowed_ips (v : list string) rd : t DateTime :=
      mk (Id rd) (user_id rd) (key rd) v (write_enabled rd)
         (last_used rd) (expires rd) (description rd).
Definition Set_write_enabled (v : bool) rd : t DateTime :=
      mk (Id rd) (user_id rd) (key rd) (allowed_ips rd) v
         (last_used rd) (expires rd) (description rd).
(** [d.Set] of [last_used], which the schema declares a string, with
    the payload's [*strfmt.DateTime] as the read callback passes it,
    unconverted (the expiration, next to it, goes through [String]).
    The SDK's [Set] takes a nil pointer for nil, which removes the
    value: the attribute reads as the empty string.  A pointer to a
    struct it hands to the field writer as it is, and the writer of a
    string attribute refuses it: [Set] returns an error, the callback
    drops it, and the attribute stays as it was. *)
Definition Set_last_used (v : option DateTime) rd : t DateTime :=
      match v with
      | None =>
          mk (Id rd) (user_id rd) (key rd) (allowed_ips rd) (write_enabled rd)
             EmptyString (expires rd) (description rd)
      | Some _ => rd
      end.
Definition Set_expires (v : string) rd : t DateTime :=
      mk (Id rd) (user_id rd) (key rd) (allowed_ips rd) (write_enabled rd)
         (last_used rd) v (description rd).
Definition Set_description (v : string) rd : t DateTime :=
      mk (Id rd) (user_id rd) (key rd) (allowed_ips rd) (write_enabled rd)
         (last_used rd) (expires rd) v.
End Setters.
End ResourceData.

(* ================================================================= *)
(** ** The client, the state and the monad of the callbacks *)

(** [users.ClientService], restricted to the four token endpoints the
    callbacks call.  [Remote] is the state of the remote service: a call
    receives it and returns it, possibly changed, with the response. *)
Module users.
Record ClientService {DateTime Remote : Type} : Type := mk {
  UsersTokensCreate :
    WritableToken.t DateTime -> Remote -> (Token.t DateTime + error) * Remote;
  UsersTokensRead :
    Z -> Remote -> (Token.t DateTime + error) * Remote;
  UsersTokensUpdate :
    Z -> WritableToken.t DateTime -> Remote -> (Token.t DateTime + error) * Remote;
  UsersTokensDelete :
    Z -> Remote -> (unit + error) * Remote
}.
Arguments ClientService : clear implicits.
Arguments mk {DateTime Remote}.
End users.

(** The provider state behind [m]: the API client handle. *)
Record providerState {DateTime Remote : Type} : Type := {
  Users : users.ClientService DateTime Remote
}.
Arguments providerState : clear implicits.

(** One request/response exchange with the remote API: the endpoint, the
    parameters sent and the response received. *)
Inductive Exchange {DateTime : Type} : Type :=
| ExCreate (data : WritableToken.t DateTime) (res : Token.t DateTime + error)
| ExRead (id : Z) (res : Token.t DateTime + error)
| ExUpdate (id : Z) (data : WritableToken.t DateTime) (res : Token.t DateTime + error)
| ExDelete (id : Z) (res : unit + error).
Arguments Exchange : clear implicits.

(** What a callback can touch: the resource data behind the pointer [d],
    the remote service behind the client, and the exchanges so far. *)
Record State {DateTime Remote : Type} : Type := mkState {
  d : ResourceData.t DateTime;
  remote : Remote;
  exchanges : list (Exchange DateTime)
}.
Arguments State : clear implicits.
Arguments mkState {DateTime Remote}.

(** The four lifecycle operations of [schema.Resource]. *)
Inductive Operation : Type := Create | Read | Update | Delete.

Definition M (S A : Type) : Type := S -> A * S.

Definition ret {S A : Type} (a : A) : M S A := fun s => (a, s).

Definition bind {S A B : Type} (m : M S A) (k : A -> M S B) : M S B :=
  fun s => let (a, s') := m s in k a s'.

Declare Scope go_scope.
Delimit Scope go_scope with go.
Notation "x <- m ;; k" := (bind m (fun x => k))
  (at level 61, m at next level, right associativity) : go_scope.
Notation "m ;; k" := (bind m (fun _ => k))
  (at level 61, right associativity) : go_scope.

(** [if cond { stmt }] *)
Definition when {S : Type} (cond : bool) (stmt : M S unit) : M S unit :=
  if cond then stmt else ret tt.

(** A string is not the empty string; [len(s)]. *)
Definition nonempty (s : string) : bool := negb (String.eqb s EmptyString).
Definition len (s : string) : Z := Z.of_nat (String.length s).

(* ================================================================= *)
(** ** The callbacks of [resource_netbox_token.go] *)

Section Callbacks.

Context {DateTime Remote : Type}.

(** [strfmt.ParseDateTime] and the [String] method of [strfmt.DateTime]. *)
Variable ParseDateTime : string -> DateTime + error.
Variable DateTime_String : DateTime -> string.

(** The provider state every callback receives as [m]. *)
Variable api : providerState DateTime Remote.

Abbreviation St := (State DateTime Remote).

(** [d.Id()], [d.Get(attr)], [d.Set(attr, v)] and [d.SetId(v)]. *)
Definition d_Id : M St string :=
  fun s => (ResourceData.Id (d s), s).

Definition d_Get {A : Type} (attr : ResourceData.t DateTime -> A) : M St A :=
  fun s => (attr (d s), s).

Definition d_Set (write : ResourceData.t DateTime -> ResourceData.t DateTime) : M St unit :=
  fun s => (tt, mkState (write (d s)) (remote s) (exchanges s)).

Definition d_SetId (v : string) : M St unit :=
  d_Set (ResourceData.SetId v).

(** A call through the client: the remote service answers and moves on,
    and the exchange is appended to the log. *)
Definition call {A : Type} (endpoint : Remote -> A * Remote)
    (exchange : A -> Exchange DateTime) : M St A :=
  fun s =>
    let (res, r') := endpoint (remote s) in
    (res, mkState (d s) r' (exchanges s ++ [exchange res])).

Definition api_Users_UsersTokensCreate (data : WritableToken.t DateTime) :=
  call (users.UsersTokensCreate (Users api) data) (ExCreate data).

Definition api_Users_UsersTokensRead (id : Z) :=
  call (users.UsersTokensRead (Users api) id) (ExRead id).

Definition api_Users_UsersTokensUpdate (id : Z) (data : WritableToken.t DateTime) :=
  call (users.UsersTokensUpdate (Users api) id data) (ExUpdate id data).

Definition api_Users_UsersTokensDelete (id : Z) :=
  call (users.UsersTokensDelete (Users api) id) (ExDelete id).

(** The block shared by create and update:
    [if expiresStr != empty { expires, err := ParseDateTime(expiresStr);
    if err != nil { return } ; data.Expires = &expires }]; [inr] is the
    early return. *)
Definition set_Expires (expiresStr : string) (data : WritableToken.t DateTime)
  : WritableToken.t DateTime + error :=
  if nonempty expiresStr then
    match ParseDateTime expiresStr with
    | inr err => inr err
    | inl expires => inl (WritableToken.with_Expires (Some expires) data)
    end
  else inl data.

Definition resourceNetboxTokenRead : M St diag.Diagnostics :=
  (s <- d_Id ;;
   let (id, _) := strconv.ParseInt s in
   res <- api_Users_UsersTokensRead id ;;
   match res with
   | inr err =>
       match err with
       | UsersTokensReadDefault errorcode =>
           if errorcode =? 404 then
             d_SetId EmptyString ;;
             ret diag.nil
           else ret (diag.FromErr err)
       | _ => ret (diag.FromErr err)
       end
   | inl token =>
       match Token.User token with
       | Some user => d_Set (ResourceData.Set_user_id (NestedUser.ID user))
       | None => ret tt
       end ;;
       when (nonempty (Token.Key token))
         (d_Set (ResourceData.Set_key (Token.Key token))) ;;
       d_Set (ResourceData.Set_last_used (Token.LastUsed token)) ;;
       match Token.Expires token with
       | Some expires => d_Set (ResourceData.Set_expires (DateTime_String expires))
       | None => ret tt
       end ;;
       d_Set (ResourceData.Set_allowed_ips (Token.AllowedIps token)) ;;
       d_Set (ResourceData.Set_write_enabled (Token.WriteEnabled token)) ;;
       d_Set (ResourceData.Set_description (Token.Description token)) ;;
       ret diag.nil
   end)%go.

Definition resourceNetboxTokenCreate : M St diag.Diagnostics :=
  (let data := WritableToken.zero in
   userid <- d_Get ResourceData.user_id ;;
   key <- d_Get ResourceData.key ;;
   allowedIps <- d_Get ResourceData.allowed_ips ;;
   let data := WritableToken.with_User (Some userid) data in
   let data := if nonempty key then WritableToken.with_Key key data else data in
   let data := WritableToken.with_AllowedIps (map (fun v => v) allowedIps) data in
   write_enabled <- d_Get ResourceData.write_enabled ;;
   let data := WritableToken.with_WriteEnabled write_enabled data in
   description <- d_Get ResourceData.description ;;
   let data := WritableToken.with_Description description data in
   expiresStr <- d_Get ResourceData.expires ;;
   match set_Expires expiresStr data with
   | inr err => ret (diag.FromErr err)
   | inl data =>
       res <- api_Users_UsersTokensCreate data ;;
       match res with
       | inr err => ret (diag.FromErr err)
       | inl payload =>
           d_SetId (strconv.FormatInt (Token.ID payload)) ;;
           when (nonempty (Token.Key payload))
             (d_Set (ResourceData.Set_key (Token.Key payload))) ;;
           resourceNetboxTokenRead
       end
   end)%go.

Definition resourceNetboxTokenUpdate : M St diag.Diagnostics :=
  (s <- d_Id ;;
   let (id, _) := strconv.ParseInt s in
   let data := WritableToken.zero in
   userid <- d_Get ResourceData.user_id ;;
   key <- d_Get ResourceData.key ;;
   allowedIps <- d_Get ResourceData.allowed_ips ;;
   let data := WritableToken.with_User (Some userid) data in
   let data :=
     if nonempty key && (len key =? 40) then WritableToken.with_Key key data
     else data in
   let data := WritableToken.with_AllowedIps (map (fun v => v) allowedIps) data in
   write_enabled <- d_Get ResourceData.write_enabled ;;
   let data := WritableToken.with_WriteEnabled write_enabled data in
   description <- d_Get ResourceData.description ;;
   let data := WritableToken.with_Description description data in
   expiresStr <- d_Get ResourceData.expires ;;
   match set_Expires expiresStr data with
   | inr err => ret (diag.FromErr err)
   | inl data =>
       res <- api_Users_UsersTokensUpdate id data ;;
       match res with
       | inr err => ret (diag.FromErr err)
       | inl _ => resourceNetboxTokenRead
       end
   end)%go.

Definition resourceNetboxTokenDelete : M St diag.Diagnostics :=
  (s <- d_Id ;;
   let (id, _) := strconv.ParseInt s in
   res <- api_Users_UsersTokensDelete id ;;
   match res with
   | inr err =>
       match err with
       | UsersTokensDeleteDefault code =>
           if code =? 404 then
             d_SetId EmptyString ;;
             ret diag.nil
           else ret (diag.FromErr err)
       | _ => ret (diag.FromErr err)
       end
   | inl _ =>
       d_SetId EmptyString ;;
       ret diag.nil
   end)%go.

(** [resourceNetboxToken()]: the callback registered for each operation. *)
Definition resourceNetboxToken (op : Operation) : M St diag.Diagnostics :=
  match op with
  | Create => resourceNetboxTokenCreate
  | Read => resourceNetboxTokenRead
  | Update => resourceNetboxTokenUpdate
  | Delete => resourceNetboxTokenDelete
  end.

(** One invocation of a callback by the SDK, on resource data [rd] and
    with the remote service in state [r]; the log starts empty, so it
    ends as the exchanges of this invocation. *)
Definition invoke (op : Operation) (rd : ResourceData.t DateTime) (r : Remote)
  : diag.Diagnostics * St :=
  resourceNetboxToken op (mkState rd r []).

End Callbacks.

Arguments invoke {DateTime Remote} ParseDateTime DateTime_String api op rd r.

(* ================================================================= *)
(** ** Reading the log of exchanges *)

Section Log.

Context {DateTime : Type}.
Implicit Type e : Exchange DateTime.

(** The error of a failed exchange. *)
Definition response_error e : option error :=
  match e with
  | ExCreate _ (inr err) | ExRead _ (inr err)
  | ExUpdate _ _ (inr err) | ExDelete _ (inr err) => Some err
  | _ => None
  end.

(** The not-found responses the callbacks look for: the read callback
    asserts [*users.UsersTokensReadDefault] on the error of its read and
    compares [Code()] with 404; the delete callback does the same with
    [*users.UsersTokensDeleteDefault] on the error of its delete. *)
Definition not_found e : bool :=
  match e with
  | ExRead _ (inr (UsersTokensReadDefault code)) => code =? 404
  | ExDelete _ (inr (UsersTokensDeleteDefault code)) => code =? 404
  | _ => false
  end.

(** The ID parameter of a by-ID request. *)
Definition request_id e : option Z :=
  match e with
  | ExCreate _ _ => None
  | ExRead id _ | ExUpdate id _ _ | ExDelete id _ => Some id
  end.

(** The body of a request that has one. *)
Definition request_body e : option (WritableToken.t DateTime) :=
  match e with
  | ExCreate data _ | ExUpdate _ data _ => Some data
  | _ => None
  end.

(** The token payload the callbacks read out of a response: that of a
    create or of a read (the update callback drops its response). *)
Definition response_payload e : option (Token.t DateTime) :=
  match e with
  | ExCreate _ (inl token) | ExRead _ (inl token) => Some token
  | _ => None
  end.

Definition is_read e : bool :=
  match e with ExRead _ _ => true | _ => false end.

End Log.

(* ================================================================= *)
(** ** Test doubles of the remote service *)

(** An in-memory stand-in for NetBox, used to run the callbacks on
    concrete inputs: tokens are kept in a list, IDs are handed out in
    sequence by an [int64] counter, a missing ID answers 404.  Its date-times are the strings
    themselves; the single string it refuses to parse is [tomorrow]. *)
Module fake.

Definition DateTime : Type := string.

Definition ParseDateTime (s : string) : DateTime + error :=
  if String.eqb s "tomorrow" then inr (errorString "parsing time") else inl s.

Definition DateTime_String (t : DateTime) : string := t.

Record Netbox : Type := mkNetbox {
  next_id : Z;
  tokens : list (Token.t DateTime)
}.

Definition stored (data : WritableToken.t DateTime) (id : Z) : Token.t DateTime :=
  Token.mk id (WritableToken.Key data)
    (option_map (fun u => NestedUser.mk u "admin") (WritableToken.User data))
    (WritableToken.AllowedIps data) (WritableToken.WriteEnabled data)
    None (WritableToken.Expires data) (WritableToken.Description data).

Definition has_id (id : Z) (t : Token.t DateTime) : bool := Token.ID t =? id.

Definition create (data : WritableToken.t DateTime) (nb : Netbox)
  : (Token.t DateTime + error) * Netbox :=
  let t := stored data (strconv.int64 (next_id nb)) in
  (inl t, mkNetbox (next_id nb + 1) (t :: tokens nb)).

Definition read (id : Z) (nb : Netbox) : (Token.t DateTime + error) * Netbox :=
  match find (has_id id) (tokens nb) with
  | Some t => (inl t, nb)
  | None => (inr (UsersTokensReadDefault 404), nb)
  end.

Definition update (id : Z) (data : WritableToken.t DateTime) (nb : Netbox)
  : (Token.t DateTime + error) * Netbox :=
  match find (has_id id) (tokens nb) with
  | Some _ =>
      let t := stored data id in
      (inl t,
       mkNetbox (next_id nb) (t :: filter (fun x => negb (has_id id x)) (tokens nb)))
  | None => (inr (UsersTokensUpdateDefault 404), nb)
  end.

Definition delete (id : Z) (nb : Netbox) : (unit + error) * Netbox :=
  match find (has_id id) (tokens nb) with
  | Some _ =>
      (inl tt, mkNetbox (next_id nb) (filter (fun x => negb (has_id id x)) (tokens nb)))
  | None => (inr (UsersTokensDeleteDefault 404), nb)
  end.

Definition api : providerState DateTime Netbox :=
  Build_providerState _ _ (users.mk create read update delete).

(** A service that accepts a create and has lost the token by the time
    it is read back (deleted out of band). *)
Definition create_then_gone (data : WritableToken.t DateTime) (nb : Netbox)
  : (Token.t DateTime + error) * Netbox :=
  (inl (stored data (strconv.int64 (next_id nb))), nb).

Definition api_gone : providerState DateTime Netbox :=
  Build_providerState _ _ (users.mk create_then_gone read update delete).

(** A service whose every endpoint is down. *)
Definition down : error := errorString "connection refused".

Definition api_down : providerState DateTime Netbox :=
  Build_providerState _ _
    (users.mk (fun _ nb => (inr down, nb)) (fun _ nb => (inr down, nb))
       (fun _ _ nb => (inr down, nb)) (fun _ nb => (inr down, nb))).

Definition empty : Netbox := mkNetbox 1 [].

(** A v1 key of forty characters and the public part of a v2 key. *)
Definition key_v1 : string := "0123456789abcdef0123456789abcdef01234567".
Definition key_v2 : string := "nbt_4f9a".

(** Resource data as Terraform hands it to create: no ID yet. *)
Definition planned (k : string) (exp : string) : ResourceData.t DateTime :=
  ResourceData.mk EmptyString 5 k ["10.0.0.0/8"%string] true EmptyString exp "ci token".

(** Resource data of a token in state under ID [id]. *)
Definition in_state (id : string) (k : string) : ResourceData.t DateTime :=
  ResourceData.mk id 5 k ["10.0.0.0/8"%string] true EmptyString EmptyString "ci token".

(** A remote holding one token, number 7, whose key it does not reveal. *)
Definition token7 : Token.t DateTime :=
  Token.mk 7 EmptyString (Some (NestedUser.mk 5 "admin")) [] false None None "rotated".

Definition holding7 : Netbox := mkNetbox 8 [token7].

Definition run (a : providerState DateTime Netbox) :=
  invoke ParseDateTime DateTime_String a.

(** The service holds, under [id], a token of user [uid] with
    description [desc]. *)
Definition holds (nb : Netbox) (id uid : Z) (desc : string) : Prop :=
  exists t,
    find (has_id id) (tokens nb) = Some t /\
    Token.User t = Some (NestedUser.mk uid "admin") /\
    Token.Description t = desc.

(** The request bodies built from [planned] and [in_state] resource data
    with key [k]. *)
Definition body (k : string) : WritableToken.t DateTime :=
  WritableToken.mk (Some 5) k ["10.0.0.0/8"%string] true "ci token" None.

(** The service holds, under [id], the token that the body [data]
    describes. *)
Definition keeps (nb : Netbox) (id : Z) (data : WritableToken.t DateTime) : Prop :=
  find (has_id id) (tokens nb) = Some (stored data id).

(** The body that describes [token7]. *)
Definition body7 : WritableToken.t DateTime :=
  WritableToken.mk (Some 5) EmptyString [] false "rotated" None.

End fake.

(* ================================================================= *)
(** * Facts about [strconv] *)

Module strconv_facts.
Import strconv.

Example FormatInt_42 : FormatInt 42 = "42"%string.
Proof. reflexivity. Qed.

Example FormatInt_min : FormatInt (- 2 ^ 63) = "-9223372036854775808"%string.
Proof. reflexivity. Qed.

Example ParseInt_plus7 : ParseInt "+7" = (7, None).
Proof. reflexivity. Qed.

Example ParseInt_empty : ParseInt EmptyString = (0, Some ErrSyntax).
Proof. reflexivity. Qed.

Example ParseInt_word : ParseInt "seven" = (0, Some ErrSyntax).
Proof. reflexivity. Qed.

Example ParseInt_underscore : ParseInt "1_000" = (0, Some ErrSyntax).
Proof. reflexivity. Qed.

Example ParseInt_too_big :
  ParseInt "9223372036854775808" = (9223372036854775807, Some ErrRange).
Proof. reflexivity. Qed.

Example ParseInt_overflow_then_letter :
  ParseInt "99999999999999999999x" = (9223372036854775807, Some ErrRange).
Proof. reflexivity. Qed.

Example ParseInt_too_small :
  ParseInt "-9223372036854775809" = (-9223372036854775808, Some ErrRange).
Proof. reflexivity. Qed.

Lemma pow64 : 2 ^ 64 = 18446744073709551616.
Proof. reflexivity. Qed.

Lemma pow63 : 2 ^ 63 = 9223372036854775808.
Proof. reflexivity. Qed.

Lemma uint64_small (x : Z) : 0 <= x <= maxUint64 -> uint64 x = x.
Proof.
  unfold uint64, maxUint64. rewrite pow64. intros H.
  apply Z.mod_small. lia.
Qed.

Lemma int64_small (x : Z) : - 2 ^ 63 <= x < 2 ^ 63 -> int64 x = x.
Proof.
  unfold int64. rewrite pow63, pow64. intros H.
  rewrite Z.mod_small; lia.
Qed.

(** A decimal digit, written as a byte and read back. *)
Lemma digit_val_byte_of (dg : Z) :
  0 <= dg <= 9 -> digit_val (byte_of (48 + dg)) = Some dg.
Proof.
  intros H.
  assert (C : dg = 0 \/ dg = 1 \/ dg = 2 \/ dg = 3 \/ dg = 4 \/
              dg = 5 \/ dg = 6 \/ dg = 7 \/ dg = 8 \/ dg = 9) by lia.
  repeat destruct C as [C | C]; subst dg; reflexivity.
Qed.

Lemma byte_of_digit_not_sign (dg : Z) :
  0 <= dg <= 9 ->
  Ascii.eqb (byte_of (48 + dg)) "+" || Ascii.eqb (byte_of (48 + dg)) "-" = false.
Proof.
  intros H.
  assert (C : dg = 0 \/ dg = 1 \/ dg = 2 \/ dg = 3 \/ dg = 4 \/
              dg = 5 \/ dg = 6 \/ dg = 7 \/ dg = 8 \/ dg = 9) by lia.
  repeat destruct C as [C | C]; subst dg; reflexivity.
Qed.

(** One turn of the parsing loop on the next decimal digit, when the
    result still fits. *)
Lemma ParseUint_loop_digit (q dg : Z) (s : string) :
  0 <= q -> 0 <= dg <= 9 -> q * 10 + dg <= maxUint64 ->
  ParseUint_loop (String (byte_of (48 + dg)) s) q = ParseUint_loop s (q * 10 + dg).
Proof.
  intros Hq Hd Hmax. cbn [ParseUint_loop].
  rewrite digit_val_byte_of by assumption.
  assert (E1 : (dg >=? 10) = false) by lia. rewrite E1.
  assert (E2 : (q >=? cutoff10) = false).
  { unfold cutoff10, maxUint64 in *. rewrite pow64 in *.
    change ((18446744073709551616 - 1) / 10 + 1) with 1844674407370955162. lia. }
  rewrite E2. cbv zeta.
  rewrite (uint64_small (q * 10)) by lia.
  rewrite (uint64_small (q * 10 + dg)) by lia.
  assert (E3 : (q * 10 + dg <? q * 10) || (q * 10 + dg >? maxUint64) = false).
  { apply orb_false_iff. split; lia. }
  rewrite E3. reflexivity.
Qed.

(** Parsing the digits that [formatBits_loop] wrote gives the number
    back: the loop leaves [u] as the running value where [acc] begins. *)
Lemma ParseUint_loop_formatBits (fuel : nat) :
  forall (u : Z) (acc : string),
    0 <= u <= maxUint64 -> u < 10 ^ Z.of_nat fuel ->
    ParseUint_loop (formatBits_loop fuel u acc) 0 = ParseUint_loop acc u.
Proof.
  induction fuel as [| fuel IH]; intros u acc Hu Hfuel.
  - cbn in Hfuel. assert (u = 0) by lia. subst u. reflexivity.
  - cbn [formatBits_loop]. cbv zeta.
    pose proof (Z.div_mod u 10 ltac:(lia)) as Hdm.
    pose proof (Z.mod_pos_bound u 10 ltac:(lia)) as Hm.
    assert (Hdg : u - u / 10 * 10 = u mod 10) by lia.
    rewrite Hdg.
    destruct (Z.eqb_spec (u / 10) 0) as [Hq | Hq].
    + rewrite ParseUint_loop_digit by lia.
      f_equal. lia.
    + assert (Hq0 : 0 <= u / 10) by (apply Z.div_pos; lia).
      rewrite IH.
      * rewrite ParseUint_loop_digit by lia. f_equal. lia.
      * lia.
      * rewrite Nat2Z.inj_succ, Z.pow_succ_r in Hfuel by lia.
        apply Z.div_lt_upper_bound; lia.
Qed.

(** With fuel left, [formatBits_loop] writes at least one digit, and the
    string starts with a digit. *)
Lemma formatBits_loop_head (fuel : nat) :
  forall (u : Z) (acc : string),
    0 <= u ->
    exists dg rest,
      0 <= dg <= 9 /\
      formatBits_loop (S fuel) u acc = String (byte_of (48 + dg)) rest.
Proof.
  induction fuel as [| fuel IH]; intros u acc Hu.
  - cbn [formatBits_loop]. cbv zeta.
    pose proof (Z.div_mod u 10 ltac:(lia)) as Hdm.
    pose proof (Z.mod_pos_bound u 10 ltac:(lia)) as Hm.
    exists (u - u / 10 * 10), acc. split; [lia |].
    destruct (u / 10 =? 0); reflexivity.
  - remember (S fuel) as f eqn:Ef.
    cbn [formatBits_loop]. cbv zeta.
    pose proof (Z.div_mod u 10 ltac:(lia)) as Hdm.
    pose proof (Z.mod_pos_bound u 10 ltac:(lia)) as Hm.
    destruct (Z.eqb_spec (u / 10) 0) as [Hq | Hq].
    + exists (u - u / 10 * 10), acc. split; [lia | reflexivity].
    + subst f. apply IH. apply Z.div_pos; lia.
Qed.

(** [ParseUint] inverts the digits of [FormatInt]. *)
Lemma ParseUint_formatBits (u : Z) :
  0 <= u <= maxUint64 ->
  ParseUint (formatBits_loop 20 u EmptyString) = (u, None).
Proof.
  intros Hu.
  destruct (formatBits_loop_head 19 u EmptyString) as (dg & rest & Hdg & E); [lia |].
  unfold ParseUint. rewrite E. rewrite <- E.
  rewrite ParseUint_loop_formatBits.
  - reflexivity.
  - assumption.
  - unfold maxUint64 in Hu. rewrite pow64 in Hu.
    change (10 ^ Z.of_nat 20) with 100000000000000000000. lia.
Qed.

(** The round trip the create callback relies on when it hands the new
    ID to the read callback: an [int64] written by [FormatInt] is read
    back by [ParseInt], without error. *)
Lemma ParseInt_FormatInt (i : Z) :
  - 2 ^ 63 <= i < 2 ^ 63 -> ParseInt (FormatInt i) = (i, None).
Proof.
  intros Hi. rewrite pow63 in Hi. unfold FormatInt. cbv zeta.
  destruct (Z.ltb_spec i 0) as [Hneg | Hpos].
  - assert (Eu : uint64 (- uint64 i) = - i).
    { unfold uint64. rewrite pow64.
      assert (E1 : i mod 18446744073709551616 = i + 18446744073709551616)
        by (symmetry; apply (Z.mod_unique _ _ (-1)); lia).
      rewrite E1.
      symmetry; apply (Z.mod_unique _ _ (-1)); lia. }
    rewrite Eu.
    cbn [ParseInt]. change (Ascii.eqb "-" "-") with true.
    change (Ascii.eqb "-" "+") with false. cbn [orb].
    rewrite ParseUint_formatBits
      by (unfold maxUint64; rewrite pow64; lia).
    cbv zeta. cbn [negb andb]. rewrite pow63.
    assert (E : (- i >? 9223372036854775808) = false) by lia. rewrite E.
    f_equal.
    destruct (Z.eq_dec i (-9223372036854775808)) as [-> | Hne]; [reflexivity |].
    rewrite (int64_small (- i)) by (rewrite pow63; lia).
    rewrite Z.opp_involutive. apply int64_small. rewrite pow63. lia.
  - rewrite uint64_small by (unfold maxUint64; rewrite pow64; lia).
    destruct (formatBits_loop_head 19 i EmptyString) as (dg & rest & Hdg & E); [lia |].
    pose proof (ParseUint_formatBits i) as P.
    rewrite E in *. cbn [ParseInt].
    pose proof (byte_of_digit_not_sign dg Hdg) as Hs.
    apply orb_false_iff in Hs. destruct Hs as [Hplus Hminus].
    rewrite Hplus, Hminus. cbn [orb].
    rewrite P by (unfold maxUint64; rewrite pow64; lia).
    cbv zeta. cbn [negb andb]. rewrite pow63.
    assert (E' : (i >=? 9223372036854775808) = false) by lia. rewrite E'.
    f_equal. apply int64_small. rewrite pow63. lia.
Qed.

(** What [ParseInt] returns beside an error: 0 on a syntax error, the
    [int64] bound of the sign on a range error. *)
Lemma ParseInt_error_value (s : string) :
  match snd (ParseInt s) with
  | Some ErrSyntax => fst (ParseInt s) = 0
  | Some ErrRange => fst (ParseInt s) = 2 ^ 63 - 1 \/ fst (ParseInt s) = - 2 ^ 63
  | None => True
  end.
Proof.
  destruct s as [| c rest]; [reflexivity |].
  unfold ParseInt.
  destruct (ParseUint (if Ascii.eqb c "+" || Ascii.eqb c "-" then rest else String c rest))
    as [un [[|] |]]; cbv zeta.
  - reflexivity.
  - destruct (negb (Ascii.eqb c "-") && (un >=? 2 ^ 63)); [left; reflexivity |].
    destruct (Ascii.eqb c "-" && (un >? 2 ^ 63)); [right; reflexivity | exact I].
  - destruct (negb (Ascii.eqb c "-") && (un >=? 2 ^ 63)); [left; reflexivity |].
    destruct (Ascii.eqb c "-" && (un >? 2 ^ 63)); [right; reflexivity | exact I].
Qed.

End strconv_facts.

(* ================================================================= *)
(** * The callbacks, case by case *)

Ltac unfold_go :=
  unfold bind, ret, when, d_Id, d_Get, d_Set, d_SetId,
    api_Users_UsersTokensCreate, api_Users_UsersTokensRead,
    api_Users_UsersTokensUpdate, api_Users_UsersTokensDelete, call.

Ltac step_go := cbv beta iota; cbn [d remote exchanges fst snd app].

Lemma nonempty_true (s : string) : nonempty s = true <-> s <> EmptyString.
Proof.
  unfold nonempty. destruct (String.eqb_spec s EmptyString); cbn; split;
    congruence.
Qed.

Lemma nonempty_false (s : string) : nonempty s = false <-> s = EmptyString.
Proof.
  unfold nonempty. destruct (String.eqb_spec s EmptyString); cbn; split;
    congruence.
Qed.

Section Lifecycle.

Context {DateTime Remote : Type}.
Variable ParseDateTime : string -> DateTime + error.
Variable DateTime_String : DateTime -> string.
Variable api : providerState DateTime Remote.

Abbreviation St := (State DateTime Remote).
Abbreviation run := (invoke ParseDateTime DateTime_String api).
Abbreviation read := (resourceNetboxTokenRead DateTime_String api).
Abbreviation parsed_id rd := (fst (strconv.ParseInt (ResourceData.Id rd))).

(** A read whose call answers with a payload. *)
Lemma Read_ok (s : St) (token : Token.t DateTime) (r' : Remote) :
  users.UsersTokensRead (Users api) (parsed_id (d s)) (remote s) = (inl token, r') ->
  exists rd',
    read s =
      (diag.nil,
       mkState rd' r' (exchanges s ++ [ExRead (parsed_id (d s)) (inl token)])) /\
    ResourceData.Id rd' = ResourceData.Id (d s) /\
    ResourceData.user_id rd' =
      match Token.User token with
      | Some user => NestedUser.ID user
      | None => ResourceData.user_id (d s)
      end /\
    ResourceData.key rd' =
      (if nonempty (Token.Key token) then Token.Key token
       else ResourceData.key (d s)) /\
    ResourceData.last_used rd' =
      match Token.LastUsed token with
      | Some _ => ResourceData.last_used (d s)
      | None => EmptyString
      end /\
    ResourceData.expires rd' =
      match Token.Expires token with
      | Some expires => DateTime_String expires
      | None => ResourceData.expires (d s)
      end /\
    ResourceData.allowed_ips rd' = Token.AllowedIps token /\
    ResourceData.write_enabled rd' = Token.WriteEnabled token /\
    ResourceData.description rd' = Token.Description token.
Proof.
  intros E. unfold resourceNetboxTokenRead. unfold_go.
  destruct (strconv.ParseInt (ResourceData.Id (d s))) as [id nerr]. cbn [fst] in *.
  rewrite E.
  destruct (Token.User token), (nonempty (Token.Key token)),
    (Token.LastUsed token), (Token.Expires token);
    cbn; eexists; (split; [reflexivity |]); cbn; repeat split.
Qed.

(** A read whose call fails. *)
Lemma Read_failed (s : St) (err : error) (r' : Remote) :
  users.UsersTokensRead (Users api) (parsed_id (d s)) (remote s) = (inr err, r') ->
  let e := ExRead (parsed_id (d s)) (inr err) in
  read s =
    if not_found e
    then (diag.nil,
          mkState (ResourceData.SetId EmptyString (d s)) r' (exchanges s ++ [e]))
    else (diag.FromErr err, mkState (d s) r' (exchanges s ++ [e])).
Proof.
  intros E. unfold resourceNetboxTokenRead. unfold_go.
  destruct (strconv.ParseInt (ResourceData.Id (d s))) as [id nerr]. cbn [fst] in *.
  rewrite E. cbn [not_found].
  destruct err as [c | c | c | c | msg]; try reflexivity.
  destruct (c =? 404); reflexivity.
Qed.

(** A delete, by the answer of its call. *)
Lemma Delete_run (rd : ResourceData.t DateTime) (r : Remote) :
  let id := parsed_id rd in
  let res := fst (users.UsersTokensDelete (Users api) id r) in
  let r' := snd (users.UsersTokensDelete (Users api) id r) in
  let e := ExDelete id res in
  run Delete rd r =
    match res with
    | inl _ => (diag.nil, mkState (ResourceData.SetId EmptyString rd) r' [e])
    | inr err =>
        if not_found e
        then (diag.nil, mkState (ResourceData.SetId EmptyString rd) r' [e])
        else (diag.FromErr err, mkState rd r' [e])
    end.
Proof.
  cbv zeta.
  unfold invoke, resourceNetboxToken, resourceNetboxTokenDelete. unfold_go.
  cbn [d remote exchanges].
  destruct (strconv.ParseInt (ResourceData.Id rd)) as [id nerr].
  cbn [fst snd]. cbv beta iota. cbn [d remote exchanges].
  destruct (users.UsersTokensDelete (Users api) id r) as [[[] | err] r'];
    cbn; [reflexivity |].
  destruct err as [c | c | c | c | msg]; try reflexivity.
  destruct (c =? 404); reflexivity.
Qed.

(** The request bodies, before the expiration is filled in.  An empty
    configured key and the zero value of [Key] are the same string, so
    the guard of create leaves [Key] equal to the configured key. *)
Abbreviation create_body rd :=
  (WritableToken.mk (Some (ResourceData.user_id rd)) (ResourceData.key rd)
     (ResourceData.allowed_ips rd) (ResourceData.write_enabled rd)
     (ResourceData.description rd) None).

Abbreviation update_body rd :=
  (WritableToken.mk (Some (ResourceData.user_id rd))
     (if nonempty (ResourceData.key rd) && (len (ResourceData.key rd) =? 40)
      then ResourceData.key rd else EmptyString)
     (ResourceData.allowed_ips rd) (ResourceData.write_enabled rd)
     (ResourceData.description rd) None).

Lemma set_Expires_inl (expiresStr : string) (data data' : WritableToken.t DateTime) :
  set_Expires ParseDateTime expiresStr data = inl data' ->
  WritableToken.User data' = WritableToken.User data /\
  WritableToken.Key data' = WritableToken.Key data /\
  WritableToken.AllowedIps data' = WritableToken.AllowedIps data /\
  WritableToken.WriteEnabled data' = WritableToken.WriteEnabled data /\
  WritableToken.Description data' = WritableToken.Description data /\
  ((expiresStr = EmptyString /\ WritableToken.Expires data' = WritableToken.Expires data) \/
   (expiresStr <> EmptyString /\
    exists t, ParseDateTime expiresStr = inl t /\ WritableToken.Expires data' = Some t)).
Proof.
  unfold set_Expires. destruct (nonempty expiresStr) eqn:N.
  - destruct (ParseDateTime expiresStr) as [t | err] eqn:P; [| discriminate].
    intros [= <-]. cbn. repeat split. right. split.
    + now apply nonempty_true.
    + now exists t.
  - intros [= <-]. repeat split. left. split; [now apply nonempty_false | reflexivity].
Qed.

Lemma set_Expires_inr (expiresStr : string) (data : WritableToken.t DateTime) (err : error) :
  set_Expires ParseDateTime expiresStr data = inr err ->
  expiresStr <> EmptyString /\ ParseDateTime expiresStr = inr err.
Proof.
  unfold set_Expires. destruct (nonempty expiresStr) eqn:N; [| discriminate].
  destruct (ParseDateTime expiresStr) as [t | err'] eqn:P; [discriminate |].
  intros [= <-]. split; [now apply nonempty_true | reflexivity].
Qed.

(** A create, step by step: the local date check, the create call, and
    on success the read callback on the resource data as create left it. *)
Lemma Create_run (rd : ResourceData.t DateTime) (r : Remote) :
  run Create rd r =
    match set_Expires ParseDateTime (ResourceData.expires rd) (create_body rd) with
    | inr err => (diag.FromErr err, mkState rd r [])
    | inl data =>
        let res := fst (users.UsersTokensCreate (Users api) data r) in
        let r' := snd (users.UsersTokensCreate (Users api) data r) in
        match res with
        | inr err => (diag.FromErr err, mkState rd r' [ExCreate data res])
        | inl payload =>
            let rd1 := ResourceData.SetId (strconv.FormatInt (Token.ID payload)) rd in
            let rd2 :=
              if nonempty (Token.Key payload)
              then ResourceData.Set_key (Token.Key payload) rd1 else rd1 in
            read (mkState rd2 r' [ExCreate data res])
        end
    end.
Proof.
  cbv zeta.
  unfold invoke, resourceNetboxToken, resourceNetboxTokenCreate. unfold_go.
  cbn [d remote exchanges]. rewrite map_id.
  assert (B : (if nonempty (ResourceData.key rd)
               then WritableToken.with_Key (ResourceData.key rd)
                      (WritableToken.with_User (Some (ResourceData.user_id rd))
                         (@WritableToken.zero DateTime))
               else WritableToken.with_User (Some (ResourceData.user_id rd))
                      WritableToken.zero) =
              WritableToken.mk (Some (ResourceData.user_id rd)) (ResourceData.key rd)
                [] false EmptyString None).
  { destruct (nonempty (ResourceData.key rd)) eqn:N; [reflexivity |].
    apply nonempty_false in N. rewrite N. reflexivity. }
  rewrite B. cbn [WritableToken.with_AllowedIps WritableToken.with_WriteEnabled
    WritableToken.with_Description WritableToken.User WritableToken.Key
    WritableToken.AllowedIps WritableToken.WriteEnabled WritableToken.Description
    WritableToken.Expires].
  destruct (set_Expires ParseDateTime (ResourceData.expires rd) _) as [data | err];
    step_go; [| reflexivity].
  destruct (users.UsersTokensCreate (Users api) data r) as [[payload | err] r'];
    step_go; [| reflexivity].
  destruct (nonempty (Token.Key payload)); reflexivity.
Qed.

(** An update, step by step. *)
Lemma Update_run (rd : ResourceData.t DateTime) (r : Remote) :
  run Update rd r =
    match set_Expires ParseDateTime (ResourceData.expires rd) (update_body rd) with
    | inr err => (diag.FromErr err, mkState rd r [])
    | inl data =>
        let id := parsed_id rd in
        let res := fst (users.UsersTokensUpdate (Users api) id data r) in
        let r' := snd (users.UsersTokensUpdate (Users api) id data r) in
        match res with
        | inr err => (diag.FromErr err, mkState rd r' [ExUpdate id data res])
        | inl _ => read (mkState rd r' [ExUpdate id data res])
        end
    end.
Proof.
  cbv zeta.
  unfold invoke, resourceNetboxToken, resourceNetboxTokenUpdate. unfold_go.
  cbn [d remote exchanges].
  destruct (strconv.ParseInt (ResourceData.Id rd)) as [id nerr].
  step_go. rewrite map_id.
  assert (B : (if nonempty (ResourceData.key rd) && (len (ResourceData.key rd) =? 40)
               then WritableToken.with_Key (ResourceData.key rd)
                      (WritableToken.with_User (Some (ResourceData.user_id rd))
                         (@WritableToken.zero DateTime))
               else WritableToken.with_User (Some (ResourceData.user_id rd))
                      WritableToken.zero) =
              WritableToken.mk (Some (ResourceData.user_id rd))
                (if nonempty (ResourceData.key rd) && (len (ResourceData.key rd) =? 40)
                 then ResourceData.key rd else EmptyString)
                [] false EmptyString None).
  { destruct (nonempty (ResourceData.key rd) && (len (ResourceData.key rd) =? 40));
      reflexivity. }
  rewrite B. cbn [WritableToken.with_AllowedIps WritableToken.with_WriteEnabled
    WritableToken.with_Description WritableToken.User WritableToken.Key
    WritableToken.AllowedIps WritableToken.WriteEnabled WritableToken.Description
    WritableToken.Expires].
  destruct (set_Expires ParseDateTime (ResourceData.expires rd) _) as [data | err];
    step_go; [| reflexivity].
  destruct (users.UsersTokensUpdate (Users api) id data r) as [[payload | err] r'];
    reflexivity.
Qed.

(** The three ways a read ends. *)
Lemma Read_cases (s : St) :
  let id := parsed_id (d s) in
  (exists token r' rd',
      read s = (diag.nil, mkState rd' r' (exchanges s ++ [ExRead id (inl token)])) /\
      ResourceData.Id rd' = ResourceData.Id (d s) /\
      ResourceData.key rd' =
        (if nonempty (Token.Key token) then Token.Key token
         else ResourceData.key (d s))) \/
  (exists err r',
      not_found (@ExRead DateTime id (inr err)) = true /\
      read s =
        (diag.nil,
         mkState (ResourceData.SetId EmptyString (d s)) r'
           (exchanges s ++ [ExRead id (inr err)]))) \/
  (exists err r',
      not_found (@ExRead DateTime id (inr err)) = false /\
      read s =
        (diag.FromErr err, mkState (d s) r' (exchanges s ++ [ExRead id (inr err)]))).
Proof.
  cbv zeta.
  destruct (users.UsersTokensRead (Users api) (parsed_id (d s)) (remote s))
    as [[token | err] r'] eqn:E.
  - left. destruct (Read_ok s token r' E) as (rd' & R & HId & _ & Hkey & _).
    exists token, r', rd'. auto.
  - right. pose proof (Read_failed s err r' E) as R. cbv zeta in R.
    destruct (not_found (ExRead (parsed_id (d s)) (inr err))) eqn:N.
    + left. exists err, r'. auto.
    + right. exists err, r'. auto.
Qed.

(** Case analysis of one invocation: the local date check, the answer
    of the write call, and the way the read that follows ends. *)
Ltac after_read s1 R :=
  let token := fresh "token" in
  let err := fresh "err" in
  let r2 := fresh "r2" in
  let rd' := fresh "rd'" in
  let N := fresh "N" in
  let HId := fresh "HId" in
  let Hkey := fresh "Hkey" in
  destruct (Read_cases s1)
    as [(token & r2 & rd' & R & HId & Hkey) |
        [(err & r2 & N & R) | (err & r2 & N & R)]];
  cbv zeta in R; cbn [d remote exchanges app] in *.

Ltac in_log :=
  repeat match goal with
    | H : In ?e (_ :: _) |- _ =>
        let E := fresh "E" in
        destruct H as [E | H];
        [ first [ subst e | inversion E; subst; clear E ] | ]
    | H : In _ [] |- _ => destruct H
    end.

Ltac run_cases op rd r :=
  let data := fresh "data" in
  let err := fresh "err" in
  let payload := fresh "payload" in
  let r1 := fresh "r1" in
  let X := fresh "X" in
  let C := fresh "C" in
  let R := fresh "R" in
  destruct op;
  [ rewrite !(Create_run rd r) in *;
    destruct (set_Expires ParseDateTime (ResourceData.expires rd) (create_body rd))
      as [data | err] eqn:X;
    [ cbv zeta in *;
      destruct (users.UsersTokensCreate (Users api) data r) as [[payload | err] r1] eqn:C;
      cbn [fst snd] in *;
      [ match goal with
        | |- context [read ?s1] => after_read s1 R; rewrite ?R in *
        end
      | ]
    | ]
  | unfold invoke, resourceNetboxToken in *;
    match goal with
    | |- context [read ?s1] => after_read s1 R; rewrite ?R in *
    end
  | rewrite !(Update_run rd r) in *;
    destruct (set_Expires ParseDateTime (ResourceData.expires rd) (update_body rd))
      as [data | err] eqn:X;
    [ cbv zeta in *;
      destruct (users.UsersTokensUpdate (Users api) (parsed_id rd) data r)
        as [[payload | err] r1] eqn:C;
      cbn [fst snd] in *;
      [ match goal with
        | |- context [read ?s1] => after_read s1 R; rewrite ?R in *
        end
      | ]
    | ]
  | rewrite !(Delete_run rd r) in *; cbv zeta in *;
    destruct (users.UsersTokensDelete (Users api) (parsed_id rd) r)
      as [[[] | err] r1] eqn:C;
    cbn [fst snd] in *;
    [ | match goal with
        | |- context [not_found ?e] => destruct (not_found e) eqn:?
        end ]
  ];
  cbn [fst snd d remote exchanges app] in *.

(** C3, as the code has it.  In every create, read, update or delete, an
    error returned by a call to the remote API is the operation's result
    (the callback returns [diag.FromErr] of that very error), unless it
    is a not-found answer to a read call, be it the call of a read or
    the read at the end of a create or an update, or to the delete
    call. *)
Theorem remote_errors_surface
    (op : Operation) (rd : ResourceData.t DateTime) (r : Remote)
    (e : Exchange DateTime) (err : error) :
  In e (exchanges (snd (run op rd r))) ->
  response_error e = Some err ->
  not_found e = false ->
  fst (run op rd r) = diag.FromErr err.
Proof.
  run_cases op rd r; intros Hin Herr Hnf; in_log; cbn in Herr;
    try discriminate; try congruence.
Qed.

(** C1.  In a read or a delete whose call to the remote API is answered
    with not found (HTTP 404), the operation returns no error and the
    resource ID is set to the empty string. *)
Theorem not_found_clears_state
    (op : Operation) (rd : ResourceData.t DateTime) (r : Remote)
    (e : Exchange DateTime) :
  op = Read \/ op = Delete ->
  In e (exchanges (snd (run op rd r))) ->
  not_found e = true ->
  fst (run op rd r) = diag.nil /\
  ResourceData.Id (d (snd (run op rd r))) = EmptyString.
Proof.
  run_cases op rd r; intros Hop Hin Hnf;
    try (destruct Hop; discriminate);
    in_log; try congruence; try discriminate Hnf;
    split; reflexivity.
Qed.

(** C4, as the code has it.  A read and a delete are exactly one exchange
    with the remote API.  A create (an update) is: no exchange at all when
    the configured expiration does not parse; else its create (update)
    call alone when that call fails; else the create (update) call
    followed by exactly one read.  No call is ever issued twice. *)
Theorem exchanges_per_operation
    (op : Operation) (rd : ResourceData.t DateTime) (r : Remote) :
  let log := exchanges (snd (run op rd r)) in
  match op with
  | Read => exists id res, log = [ExRead id res]
  | Delete => exists id res, log = [ExDelete id res]
  | Create =>
      (log = [] /\
       exists err, ParseDateTime (ResourceData.expires rd) = inr err /\
                   fst (run op rd r) = diag.FromErr err) \/
      (exists data err, log = [ExCreate data (inr err)]) \/
      (exists data payload id res, log = [ExCreate data (inl payload); ExRead id res])
  | Update =>
      (log = [] /\
       exists err, ParseDateTime (ResourceData.expires rd) = inr err /\
                   fst (run op rd r) = diag.FromErr err) \/
      (exists id data err, log = [ExUpdate id data (inr err)]) \/
      (exists id data payload id' res,
          log = [ExUpdate id data (inl payload); ExRead id' res])
  end.
Proof.
  cbv zeta.
  run_cases op rd r;
    try (left; split; [reflexivity |];
         apply set_Expires_inr in X; destruct X as [_ X]; eauto);
    try (right; left; eauto; fail);
    try (right; right; eauto 6; fail);
    eauto.
Qed.

(** C5, as the code has it.  The body of the request an update sends
    carries the user, the allowed IPs, the write-enabled flag and the
    description held in local state, the expiration parsed from local
    state when one is set, and the key held in local state when that key
    is 40 bytes long; a key of any other length is left out. *)
Theorem update_sends_full_object
    (rd : ResourceData.t DateTime) (r : Remote)
    (id : Z) (data : WritableToken.t DateTime) (res : Token.t DateTime + error) :
  In (ExUpdate id data res) (exchanges (snd (run Update rd r))) ->
  WritableToken.User data = Some (ResourceData.user_id rd) /\
  WritableToken.AllowedIps data = ResourceData.allowed_ips rd /\
  WritableToken.WriteEnabled data = ResourceData.write_enabled rd /\
  WritableToken.Description data = ResourceData.description rd /\
  ((ResourceData.expires rd = EmptyString /\ WritableToken.Expires data = None) \/
   (ResourceData.expires rd <> EmptyString /\
    exists t, ParseDateTime (ResourceData.expires rd) = inl t /\
              WritableToken.Expires data = Some t)) /\
  WritableToken.Key data =
    (if len (ResourceData.key rd) =? 40 then ResourceData.key rd else EmptyString).
Proof.
  assert (K : (if nonempty (ResourceData.key rd) && (len (ResourceData.key rd) =? 40)
               then ResourceData.key rd else EmptyString) =
              (if len (ResourceData.key rd) =? 40
               then ResourceData.key rd else EmptyString)).
  { destruct (nonempty (ResourceData.key rd)) eqn:N; [reflexivity |].
    apply nonempty_false in N. rewrite N. reflexivity. }
  remember Update as op eqn:Eop.
  run_cases op rd r; try discriminate Eop; intros Hin; in_log;
    apply set_Expires_inl in X; cbn in X;
    destruct X as (-> & -> & -> & -> & -> & X); rewrite K; auto 10.
Qed.

(** C8.  In an update, the key is part of the request body exactly when
    the key held in local state is not empty and 40 bytes long, and it is
    then that key; any other key is left out of the body. *)
Theorem update_key_only_v1
    (rd : ResourceData.t DateTime) (r : Remote)
    (id : Z) (data : WritableToken.t DateTime) (res : Token.t DateTime + error) :
  In (ExUpdate id data res) (exchanges (snd (run Update rd r))) ->
  (WritableToken.Key data <> EmptyString <->
   ResourceData.key rd <> EmptyString /\ len (ResourceData.key rd) = 40) /\
  (WritableToken.Key data <> EmptyString ->
   WritableToken.Key data = ResourceData.key rd).
Proof.
  assert (K : forall k : string,
             k = (if nonempty (ResourceData.key rd) && (len (ResourceData.key rd) =? 40)
                  then ResourceData.key rd else EmptyString) ->
             (k <> EmptyString <->
              ResourceData.key rd <> EmptyString /\ len (ResourceData.key rd) = 40) /\
             (k <> EmptyString -> k = ResourceData.key rd)).
  { intros k ->.
    destruct (nonempty (ResourceData.key rd)) eqn:N;
      destruct (Z.eqb_spec (len (ResourceData.key rd)) 40) as [L | L]; cbn [andb].
    - apply nonempty_true in N. tauto.
    - split; [| congruence]. split; [congruence | tauto].
    - apply nonempty_false in N. split; [| congruence].
      split; [congruence | tauto].
    - split; [| congruence]. split; [congruence | tauto]. }
  remember Update as op eqn:Eop.
  run_cases op rd r; try discriminate Eop; intros Hin; in_log;
    apply set_Expires_inl in X; cbn in X;
    destruct X as (_ & -> & _); apply K; reflexivity.
Qed.

(** C6, as the code has it.  After a read that is answered with a token
    payload, the local attributes [allowed_ips], [write_enabled] and
    [description] equal the payload's fields; [user_id] equals the
    payload's user ID when the payload has a user, [key] equals the
    payload's key when that key is not empty, and [expires] is the
    payload's expiration as a string when the payload has one; otherwise
    each of these three keeps the value it had. *)
Theorem read_reflects_remote
    (rd : ResourceData.t DateTime) (r : Remote)
    (id : Z) (token : Token.t DateTime) :
  In (ExRead id (inl token)) (exchanges (snd (run Read rd r))) ->
  let rd' := d (snd (run Read rd r)) in
  fst (run Read rd r) = diag.nil /\
  ResourceData.allowed_ips rd' = Token.AllowedIps token /\
  ResourceData.write_enabled rd' = Token.WriteEnabled token /\
  ResourceData.description rd' = Token.Description token /\
  ResourceData.user_id rd' =
    match Token.User token with
    | Some user => NestedUser.ID user
    | None => ResourceData.user_id rd
    end /\
  ResourceData.key rd' =
    (if nonempty (Token.Key token) then Token.Key token else ResourceData.key rd) /\
  ResourceData.expires rd' =
    match Token.Expires token with
    | Some expires => DateTime_String expires
    | None => ResourceData.expires rd
    end.
Proof.
  cbv zeta. unfold invoke, resourceNetboxToken.
  set (s := mkState rd r []).
  destruct (users.UsersTokensRead (Users api) (parsed_id (d s)) (remote s))
    as [[token' | err] r'] eqn:E.
  - destruct (Read_ok s token' r' E)
      as (rd' & -> & HId & Huser & Hkey & Hlast & Hexp & Hips & Hwe & Hdesc).
    cbn [fst snd d exchanges app s]. intros Hin. in_log.
    cbn [d s] in *. auto 10.
  - rewrite (Read_failed s err r' E). cbv zeta.
    destruct (not_found _); cbn [fst snd d exchanges app s]; intros Hin; in_log.
Qed.

(** C7, as the code has it.  When the create call of a create succeeds,
    the resource ID is left as the decimal string of the ID in the create
    response, unless the read that follows is answered with not found, in
    which case the ID is cleared and the create returns no error.  The
    decimal string of an [int64] ID parses back to that ID. *)
Theorem create_sets_id
    (rd : ResourceData.t DateTime) (r : Remote)
    (data : WritableToken.t DateTime) (token : Token.t DateTime) :
  let log := exchanges (snd (run Create rd r)) in
  In (ExCreate data (inl token)) log ->
  ResourceData.Id (d (snd (run Create rd r))) =
    (if existsb not_found log then EmptyString
     else strconv.FormatInt (Token.ID token)) /\
  (existsb not_found log = true -> fst (run Create rd r) = diag.nil) /\
  (- 2 ^ 63 <= Token.ID token < 2 ^ 63 ->
   strconv.ParseInt (strconv.FormatInt (Token.ID token)) = (Token.ID token, None)).
Proof.
  cbv zeta. intros Hin.
  assert (G : forall (A B C : Prop), A /\ B -> C -> A /\ B /\ C) by tauto.
  apply G; [| apply strconv_facts.ParseInt_FormatInt].
  revert Hin. remember Create as op eqn:Eop.
  run_cases op rd r; try discriminate Eop; intros Hin; in_log.
  - split; [| reflexivity]. rewrite HId. cbn [existsb not_found orb].
    destruct (nonempty (Token.Key token)); reflexivity.
  - split; [| reflexivity]. cbn [existsb orb]. rewrite N. reflexivity.
  - cbn [existsb orb]. rewrite N. cbn [not_found orb].
    split; [| discriminate].
    destruct (nonempty (Token.Key token)); reflexivity.
Qed.

(** C9.  In a create, the key in the request body is the configured key,
    so a key is sent only when one is configured.  In every operation the
    [key] attribute changes only by taking the key of a create or read
    response, and only a key that is not empty; so a configured key is
    never replaced by an empty one. *)
Theorem key_kept_unless_returned
    (op : Operation) (rd : ResourceData.t DateTime) (r : Remote) :
  let log := exchanges (snd (run op rd r)) in
  let key' := ResourceData.key (d (snd (run op rd r))) in
  (forall data res,
      In (ExCreate data res) log ->
      WritableToken.Key data = ResourceData.key rd /\
      (WritableToken.Key data <> EmptyString <-> ResourceData.key rd <> EmptyString)) /\
  (key' <> ResourceData.key rd ->
   exists e token,
     In e log /\ response_payload e = Some token /\
     Token.Key token <> EmptyString /\ key' = Token.Key token) /\
  (ResourceData.key rd <> EmptyString -> key' <> EmptyString).
Proof.
  cbv zeta.
  run_cases op rd r;
    (split;
     [ intros data' res' Hin; in_log;
       apply set_Expires_inl in X; cbn in X; destruct X as (_ & -> & _);
       (split; [reflexivity | tauto])
     | ]);
    try (split; [congruence | auto]; fail).
  all: try rewrite Hkey.
  all: repeat match goal with
         | |- context [nonempty ?k] =>
             let N := fresh "N" in
             destruct (nonempty k) eqn:N;
             [apply nonempty_true in N | apply nonempty_false in N]
         end.
  all: cbn [ResourceData.key ResourceData.SetId ResourceData.Set_key].
  all: (split; [intros Hchanged | intros Hset; congruence]).
  all: try congruence.
  all: first
         [ eexists (ExRead _ (inl token)), token;
           repeat split; [cbn; eauto | assumption]
         | eexists (ExCreate data (inl payload)), payload;
           repeat split; [cbn; eauto | assumption] ].
Qed.

(** C10, as the code has it.  A read, an update or a delete whose stored
    resource ID does not parse drops the parse error and goes on with the
    value [ParseInt] returned beside it: 0 when the error is a syntax
    error, the largest or the smallest [int64] when it is a range
    error.  Every by-ID request of the operation carries that value; the
    request is issued (only an update whose expiration does not parse
    stops before it), and an error the operation returns is one of the
    remote API or of the date parser, never the ID parse error. *)
Theorem unparseable_id_proceeds
    (op : Operation) (rd : ResourceData.t DateTime) (r : Remote)
    (nerr : strconv.NumError) :
  op <> Create ->
  snd (strconv.ParseInt (ResourceData.Id rd)) = Some nerr ->
  let log := exchanges (snd (run op rd r)) in
  (forall e, In e log -> request_id e = Some (parsed_id rd)) /\
  match nerr with
  | strconv.ErrSyntax => parsed_id rd = 0
  | strconv.ErrRange => parsed_id rd = 2 ^ 63 - 1 \/ parsed_id rd = - 2 ^ 63
  end /\
  (log = [] ->
   op = Update /\ exists err, ParseDateTime (ResourceData.expires rd) = inr err) /\
  (fst (run op rd r) = diag.nil \/
   (exists e err,
       In e log /\ response_error e = Some err /\
       fst (run op rd r) = diag.FromErr err) \/
   (exists err,
       ParseDateTime (ResourceData.expires rd) = inr err /\
       fst (run op rd r) = diag.FromErr err)).
Proof.
  intros Hop Hn. cbv zeta.
  pose proof (strconv_facts.ParseInt_error_value (ResourceData.Id rd)) as V.
  rewrite Hn in V.
  assert (V' : match nerr with
               | strconv.ErrSyntax => parsed_id rd = 0
               | strconv.ErrRange =>
                   parsed_id rd = 2 ^ 63 - 1 \/ parsed_id rd = - 2 ^ 63
               end) by (destruct nerr; exact V).
  clear V Hn. revert Hop.
  run_cases op rd r; intros Hop; try congruence;
    (split; [intros e Hin; in_log; reflexivity |]);
    (split; [exact V' |]);
    (split; [intros Hnil; try discriminate Hnil |]);
    try (left; reflexivity);
    try (right; left; do 2 eexists; split; [cbn; eauto |]; split; reflexivity).
  - split; [reflexivity |]. apply set_Expires_inr in X. destruct X as [_ X]. eauto.
  - right; right. apply set_Expires_inr in X. destruct X as [_ X]. eauto.
Qed.

(** *** Create, then read *)

Section Echo.

(** The remote service echoes back what was stored: [holds r id uid desc]
    says that the service, in state [r], holds under [id] a token of user
    [uid] with description [desc]. *)
Variable holds : Remote -> Z -> Z -> string -> Prop.

Hypothesis create_stores :
  forall (data : WritableToken.t DateTime) (r : Remote),
  exists token r',
    users.UsersTokensCreate (Users api) data r = (inl token, r') /\
    - 2 ^ 63 <= Token.ID token < 2 ^ 63 /\
    forall uid,
      WritableToken.User data = Some uid ->
      holds r' (Token.ID token) uid (WritableToken.Description data).

Hypothesis read_echoes :
  forall (r : Remote) (id uid : Z) (desc : string),
    holds r id uid desc ->
    exists token r',
      users.UsersTokensRead (Users api) id r = (inl token, r') /\
      holds r' id uid desc /\
      (exists user, Token.User token = Some user /\ NestedUser.ID user = uid) /\
      Token.Description token = desc.

(** A read of resource data whose ID is the decimal string of a held
    token. *)
Lemma Read_held (s : St) (id uid : Z) (desc : string) :
  - 2 ^ 63 <= id < 2 ^ 63 ->
  ResourceData.Id (d s) = strconv.FormatInt id ->
  holds (remote s) id uid desc ->
  exists rd' r' log',
    read s = (diag.nil, mkState rd' r' log') /\
    holds r' id uid desc /\
    ResourceData.Id rd' = strconv.FormatInt id /\
    ResourceData.user_id rd' = uid /\
    ResourceData.description rd' = desc.
Proof.
  intros Hid HId Hheld.
  destruct (read_echoes _ _ _ _ Hheld)
    as (token & r' & E & Hheld' & (user & Huser & Huid) & Hdesc).
  assert (P : parsed_id (d s) = id).
  { rewrite HId, strconv_facts.ParseInt_FormatInt by assumption. reflexivity. }
  rewrite <- P in E.
  destruct (Read_ok s token r' E)
    as (rd' & R & HId' & Hu & _ & _ & _ & _ & _ & Hd).
  exists rd', r'. eexists. split; [exact R |].
  rewrite Huser in Hu. repeat split; congruence.
Qed.

(** C2.  Creating a token with a user ID and a description, and then
    reading it, leaves a local state whose [user_id] and [description]
    are the values given to create, when the remote service echoes back
    what it stored. *)
Theorem create_then_read_echoes
    (rd : ResourceData.t DateTime) (r : Remote) :
  (ResourceData.expires rd = EmptyString \/
   exists t, ParseDateTime (ResourceData.expires rd) = inl t) ->
  let created := run Create rd r in
  let reread := run Read (d (snd created)) (remote (snd created)) in
  fst created = diag.nil /\
  ResourceData.user_id (d (snd created)) = ResourceData.user_id rd /\
  ResourceData.description (d (snd created)) = ResourceData.description rd /\
  fst reread = diag.nil /\
  ResourceData.user_id (d (snd reread)) = ResourceData.user_id rd /\
  ResourceData.description (d (snd reread)) = ResourceData.description rd.
Proof.
  intros Hexp. cbv zeta. rewrite Create_run.
  destruct (set_Expires ParseDateTime (ResourceData.expires rd) (create_body rd))
    as [data | err] eqn:X.
  2:{ apply set_Expires_inr in X. destruct X as [Hne Herr].
      destruct Hexp as [He | [t Ht]]; congruence. }
  apply set_Expires_inl in X. cbn in X.
  destruct X as (Huser & _ & _ & _ & Hdesc & _).
  destruct (create_stores data r) as (token & r1 & C & Hid & Hheld).
  specialize (Hheld _ Huser). rewrite Hdesc in Hheld.
  cbv zeta. rewrite C. cbn [fst snd].
  match goal with |- context [read ?s] => set (s1 := s) end.
  destruct (Read_held s1 (Token.ID token) (ResourceData.user_id rd)
              (ResourceData.description rd) Hid)
    as (rd' & r2 & log' & R & Hheld2 & HId' & Hu & Hd).
  { subst s1. cbn [d]. destruct (nonempty (Token.Key token)); reflexivity. }
  { exact Hheld. }
  rewrite R. cbn [fst snd d remote].
  unfold invoke, resourceNetboxToken.
  destruct (Read_held (mkState rd' r2 []) (Token.ID token) _ _ Hid HId' Hheld2)
    as (rd'' & r3 & log'' & R' & _ & _ & Hu' & Hd').
  rewrite R'. cbn [fst snd d]. auto 10.
Qed.

End Echo.

(* ----------------------------------------------------------------- *)
(** *** What the callbacks change, and what they leave alone *)

Lemma set_Expires_unparsed (expiresStr : string) (data : WritableToken.t DateTime)
    (err : error) :
  expiresStr <> EmptyString ->
  ParseDateTime expiresStr = inr err ->
  set_Expires ParseDateTime expiresStr data = inr err.
Proof.
  intros Hne Herr. unfold set_Expires.
  apply nonempty_true in Hne. rewrite Hne, Herr. reflexivity.
Qed.

(** X1.  A delete that returns no error, because its call succeeded or
    was answered with not found, leaves the resource data as it was but
    for the ID, which is empty. *)
Theorem delete_clears_only_id (rd : ResourceData.t DateTime) (r : Remote) :
  fst (run Delete rd r) = diag.nil ->
  d (snd (run Delete rd r)) = ResourceData.SetId EmptyString rd.
Proof.
  remember Delete as op eqn:Eop.
  run_cases op rd r; try discriminate Eop; intros Hnil;
    try discriminate Hnil; reflexivity.
Qed.

(** X2.  A read, or an update, whose read call is answered with not
    found returns no error, clears the ID and changes no attribute. *)
Theorem not_found_keeps_attributes
    (op : Operation) (rd : ResourceData.t DateTime) (r : Remote) :
  op = Read \/ op = Update ->
  existsb not_found (exchanges (snd (run op rd r))) = true ->
  fst (run op rd r) = diag.nil /\
  d (snd (run op rd r)) = ResourceData.SetId EmptyString rd.
Proof.
  run_cases op rd r; intros Hop Hnf;
    try (destruct Hop; discriminate);
    cbn [existsb] in Hnf; rewrite ?N in Hnf; cbn [not_found orb] in Hnf;
    try discriminate Hnf;
    split; reflexivity.
Qed.

(** X3.  An operation that returns an error has changed nothing in the
    resource data, unless a create call had already succeeded (create
    records the new ID before it reads the token back). *)
Theorem error_leaves_resource_data
    (op : Operation) (rd : ResourceData.t DateTime) (r : Remote) (err : error) :
  fst (run op rd r) = diag.FromErr err ->
  (forall data token,
      ~ In (ExCreate data (inl token)) (exchanges (snd (run op rd r)))) ->
  d (snd (run op rd r)) = rd.
Proof.
  run_cases op rd r; intros Herr Hnocreate;
    try discriminate Herr; try reflexivity.
  exfalso. eapply Hnocreate. left. reflexivity.
Qed.

(** X4.  No exchange follows a failed one: in the log of any operation,
    every exchange but the last was answered without error. *)
Theorem stops_at_first_failure
    (op : Operation) (rd : ResourceData.t DateTime) (r : Remote)
    (e : Exchange DateTime) :
  In e (removelast (exchanges (snd (run op rd r)))) ->
  response_error e = None.
Proof.
  run_cases op rd r; cbn [removelast]; intros Hin; in_log; reflexivity.
Qed.

(** X5.  Where an error comes from: an operation returns an error either
    because the configured expiration did not parse, and then it is the
    parser's error and no exchange has taken place, or because its last
    exchange failed with that error, other than as a handled not found. *)
Theorem error_provenance
    (op : Operation) (rd : ResourceData.t DateTime) (r : Remote) (err : error) :
  fst (run op rd r) = diag.FromErr err ->
  (exchanges (snd (run op rd r)) = [] /\
   remote (snd (run op rd r)) = r /\
   ResourceData.expires rd <> EmptyString /\
   ParseDateTime (ResourceData.expires rd) = inr err) \/
  (exists before e,
      exchanges (snd (run op rd r)) = before ++ [e] /\
      response_error e = Some err /\
      not_found e = false).
Proof.
  run_cases op rd r; intros Herr; try discriminate Herr;
    injection Herr as <-;
    try (left; apply set_Expires_inr in X; destruct X as [Hne X];
         repeat split; assumption);
    right.
  - eexists [_], _. cbn [app]. repeat split. assumption.
  - eexists [], _. cbn [app]. repeat split.
  - eexists [], _. cbn [app]. repeat split. assumption.
  - eexists [_], _. cbn [app]. repeat split. assumption.
  - eexists [], _. cbn [app]. repeat split.
  - eexists [], _. cbn [app]. repeat split. assumption.
Qed.

(** X6.  A create or an update whose configured expiration is set and
    does not parse stops there: it returns the parser's error, has made
    no call, and has changed neither the resource data nor the remote
    service. *)
Theorem unparsed_expiration_stops_before_call
    (op : Operation) (rd : ResourceData.t DateTime) (r : Remote) (err : error) :
  op = Create \/ op = Update ->
  ResourceData.expires rd <> EmptyString ->
  ParseDateTime (ResourceData.expires rd) = inr err ->
  run op rd r = (diag.FromErr err, mkState rd r []).
Proof.
  intros [-> | ->] Hne Herr.
  - rewrite Create_run, (set_Expires_unparsed _ _ err Hne Herr). reflexivity.
  - rewrite Update_run, (set_Expires_unparsed _ _ err Hne Herr). reflexivity.
Qed.

(** X7.  The body of the request a create sends carries the user, the
    key, the allowed IPs, the write-enabled flag and the description of
    the configuration, and the parsed expiration when one is set. *)
Theorem create_sends_configuration
    (rd : ResourceData.t DateTime) (r : Remote)
    (data : WritableToken.t DateTime) (res : Token.t DateTime + error) :
  In (ExCreate data res) (exchanges (snd (run Create rd r))) ->
  WritableToken.User data = Some (ResourceData.user_id rd) /\
  WritableToken.Key data = ResourceData.key rd /\
  WritableToken.AllowedIps data = ResourceData.allowed_ips rd /\
  WritableToken.WriteEnabled data = ResourceData.write_enabled rd /\
  WritableToken.Description data = ResourceData.description rd /\
  ((ResourceData.expires rd = EmptyString /\ WritableToken.Expires data = None) \/
   (ResourceData.expires rd <> EmptyString /\
    exists t, ParseDateTime (ResourceData.expires rd) = inl t /\
              WritableToken.Expires data = Some t)).
Proof.
  remember Create as op eqn:Eop.
  run_cases op rd r; try discriminate Eop; intros Hin; in_log;
    apply set_Expires_inl in X; cbn in X;
    destruct X as (-> & -> & -> & -> & -> & X); auto 10.
Qed.

(* ----------------------------------------------------------------- *)
(** *** Which token an operation addresses *)

(** X8.  A create reads back the token it has just created: when the
    create call returns a token, the log of the create is that call
    followed by one read of exactly the returned ID. *)
Theorem create_reads_back_created_token
    (rd : ResourceData.t DateTime) (r : Remote)
    (data : WritableToken.t DateTime) (token : Token.t DateTime) :
  In (ExCreate data (inl token)) (exchanges (snd (run Create rd r))) ->
  - 2 ^ 63 <= Token.ID token < 2 ^ 63 ->
  exists res,
    exchanges (snd (run Create rd r)) =
      [ExCreate data (inl token); ExRead (Token.ID token) res].
Proof.
  intros Hin Hid. revert Hin.
  assert (P : forall k : bool,
             parsed_id
               (if k
                then ResourceData.Set_key (Token.Key token)
                       (ResourceData.SetId (strconv.FormatInt (Token.ID token)) rd)
                else ResourceData.SetId (strconv.FormatInt (Token.ID token)) rd)
             = Token.ID token).
  { intros [|]; cbn [ResourceData.Id ResourceData.Set_key ResourceData.SetId];
      rewrite strconv_facts.ParseInt_FormatInt by assumption; reflexivity. }
  remember Create as op eqn:Eop.
  run_cases op rd r; try discriminate Eop; intros Hin; in_log;
    rewrite P; eexists; reflexivity.
Qed.

(** X9.  A read, an update or a delete of resource data whose ID is the
    decimal string of an [int64] sends every by-ID request for exactly
    that number; a read and a delete do send one. *)
Theorem stored_id_addresses_token
    (op : Operation) (rd : ResourceData.t DateTime) (r : Remote) (i : Z) :
  op <> Create ->
  - 2 ^ 63 <= i < 2 ^ 63 ->
  ResourceData.Id rd = strconv.FormatInt i ->
  (forall e, In e (exchanges (snd (run op rd r))) -> request_id e = Some i) /\
  (op <> Update -> exchanges (snd (run op rd r)) <> []).
Proof.
  intros Hop Hi HId.
  assert (P : parsed_id rd = i).
  { rewrite HId, strconv_facts.ParseInt_FormatInt by assumption. reflexivity. }
  revert Hop.
  run_cases op rd r; intros Hop; try congruence;
    (split; [intros e Hin; in_log; cbn [request_id]; congruence |]);
    intros Hnu; try congruence; discriminate.
Qed.

(** X10.  A read or an update none of whose exchanges is answered with
    not found leaves the resource ID as it was, whether it returns an
    error or not. *)
Theorem id_kept_unless_not_found
    (op : Operation) (rd : ResourceData.t DateTime) (r : Remote) :
  op = Read \/ op = Update ->
  existsb not_found (exchanges (snd (run op rd r))) = false ->
  ResourceData.Id (d (snd (run op rd r))) = ResourceData.Id rd.
Proof.
  run_cases op rd r; intros Hop Hnf;
    try (destruct Hop; discriminate);
    cbn [existsb] in Hnf; rewrite ?N in Hnf; cbn [not_found orb] in Hnf;
    try discriminate Hnf;
    try assumption; reflexivity.
Qed.

(* ----------------------------------------------------------------- *)
(** *** The read at the end of create and update *)

(** The read callback does not look at the log it appends to. *)
Lemma Read_from_log (rd : ResourceData.t DateTime) (r : Remote)
    (log : list (Exchange DateTime)) :
  read (mkState rd r log) =
    (fst (read (mkState rd r [])),
     mkState (d (snd (read (mkState rd r []))))
       (remote (snd (read (mkState rd r []))))
       (log ++ exchanges (snd (read (mkState rd r []))))).
Proof.
  destruct (users.UsersTokensRead (Users api) (parsed_id rd) r)
    as [[token | err] r'] eqn:E.
  - unfold resourceNetboxTokenRead. unfold_go. cbn [d remote exchanges].
    destruct (strconv.ParseInt (ResourceData.Id rd)) as [id nerr].
    cbn [fst] in E. step_go. rewrite E. step_go.
    destruct (Token.User token), (nonempty (Token.Key token)),
      (Token.LastUsed token), (Token.Expires token);
      reflexivity.
  - rewrite (Read_failed (mkState rd r log) err r' E).
    rewrite (Read_failed (mkState rd r []) err r' E).
    cbv zeta. cbn [d remote exchanges].
    destruct (not_found _); reflexivity.
Qed.

(** A payload found in the log of a read, and not there before it, is
    the one the read has written into the resource data. *)
Lemma Read_payload (s : St) (id : Z) (token : Token.t DateTime) :
  In (ExRead id (inl token)) (exchanges (snd (read s))) ->
  ~ In (ExRead id (inl token)) (exchanges s) ->
  fst (read s) = diag.nil /\
  ResourceData.Id (d (snd (read s))) = ResourceData.Id (d s) /\
  ResourceData.user_id (d (snd (read s))) =
    match Token.User token with
    | Some user => NestedUser.ID user
    | None => ResourceData.user_id (d s)
    end /\
  ResourceData.key (d (snd (read s))) =
    (if nonempty (Token.Key token) then Token.Key token
     else ResourceData.key (d s)) /\
  ResourceData.last_used (d (snd (read s))) =
    match Token.LastUsed token with
    | Some _ => ResourceData.last_used (d s)
    | None => EmptyString
    end /\
  ResourceData.expires (d (snd (read s))) =
    match Token.Expires token with
    | Some expires => DateTime_String expires
    | None => ResourceData.expires (d s)
    end /\
  ResourceData.allowed_ips (d (snd (read s))) = Token.AllowedIps token /\
  ResourceData.write_enabled (d (snd (read s))) = Token.WriteEnabled token /\
  ResourceData.description (d (snd (read s))) = Token.Description token.
Proof.
  destruct (users.UsersTokensRead (Users api) (parsed_id (d s)) (remote s))
    as [[token' | err] r'] eqn:E.
  - destruct (Read_ok s token' r' E) as (rd' & -> & F).
    cbn [fst snd d exchanges]. intros Hin Hnew.
    apply in_app_or in Hin. destruct Hin as [Hin | Hin]; [contradiction |].
    in_log. auto.
  - rewrite (Read_failed s err r' E). cbv zeta.
    destruct (not_found _); cbn [fst snd d exchanges]; intros Hin Hnew;
      apply in_app_or in Hin; (destruct Hin as [Hin | Hin]; [contradiction |]);
      in_log.
Qed.

Lemma ResourceData_ext (a b : ResourceData.t DateTime) :
  ResourceData.Id a = ResourceData.Id b ->
  ResourceData.user_id a = ResourceData.user_id b ->
  ResourceData.key a = ResourceData.key b ->
  ResourceData.allowed_ips a = ResourceData.allowed_ips b ->
  ResourceData.write_enabled a = ResourceData.write_enabled b ->
  ResourceData.last_used a = ResourceData.last_used b ->
  ResourceData.expires a = ResourceData.expires b ->
  ResourceData.description a = ResourceData.description b ->
  a = b.
Proof.
  destruct a, b. cbn. intros. subst. reflexivity.
Qed.

(** X11.  Reading is idempotent: a read answered with the payload that
    the read before it was answered with returns no error and changes
    nothing in the resource data. *)
Theorem read_twice_same_payload
    (rd : ResourceData.t DateTime) (r r' : Remote)
    (id id' : Z) (token : Token.t DateTime) :
  let rd1 := d (snd (run Read rd r)) in
  In (ExRead id (inl token)) (exchanges (snd (run Read rd r))) ->
  In (ExRead id' (inl token)) (exchanges (snd (run Read rd1 r'))) ->
  fst (run Read rd1 r') = diag.nil /\
  d (snd (run Read rd1 r')) = rd1.
Proof.
  cbv zeta. unfold invoke, resourceNetboxToken. intros H1 H2.
  apply Read_payload in H1; [| intros []].
  apply Read_payload in H2; [| intros []].
  cbn [d] in H1, H2.
  destruct H1 as (_ & I1 & U1 & K1 & L1 & E1 & A1 & W1 & D1).
  destruct H2 as (N2 & I2 & U2 & K2 & L2 & E2 & A2 & W2 & D2).
  split; [exact N2 |].
  apply ResourceData_ext; try congruence.
  - rewrite U2, U1. destruct (Token.User token); reflexivity.
  - rewrite K2, K1. destruct (nonempty (Token.Key token)); reflexivity.
  - rewrite L2. destruct (Token.LastUsed token); [reflexivity | congruence].
  - rewrite E2, E1. destruct (Token.Expires token); reflexivity.
Qed.

(** X12.  After a create or an update whose closing read is answered
    with a payload, the operation returns no error and the local
    attributes are those of the payload, not those of the request:
    [allowed_ips], [write_enabled] and [description] always, [user_id]
    and [expires] when the payload has them. *)
Theorem write_ends_in_remote_state
    (op : Operation) (rd : ResourceData.t DateTime) (r : Remote)
    (id : Z) (token : Token.t DateTime) :
  op = Create \/ op = Update ->
  In (ExRead id (inl token)) (exchanges (snd (run op rd r))) ->
  let rd' := d (snd (run op rd r)) in
  fst (run op rd r) = diag.nil /\
  ResourceData.allowed_ips rd' = Token.AllowedIps token /\
  ResourceData.write_enabled rd' = Token.WriteEnabled token /\
  ResourceData.description rd' = Token.Description token /\
  ResourceData.user_id rd' =
    match Token.User token with
    | Some user => NestedUser.ID user
    | None => ResourceData.user_id rd
    end /\
  ResourceData.expires rd' =
    match Token.Expires token with
    | Some expires => DateTime_String expires
    | None => ResourceData.expires rd
    end.
Proof.
  cbv zeta. intros [-> | ->].
  - rewrite Create_run.
    destruct (set_Expires ParseDateTime (ResourceData.expires rd) (create_body rd))
      as [data | err]; [| intros []].
    cbv zeta.
    destruct (users.UsersTokensCreate (Users api) data r) as [[payload | err] r1];
      cbn [fst snd d exchanges]; [| intros Hin; in_log].
    destruct (nonempty (Token.Key payload)); intros Hin;
      (apply Read_payload in Hin; [| cbn [exchanges]; intros Hin'; in_log]);
      cbn [d] in Hin;
      destruct Hin as (Hn & _ & Hu & _ & Hl & He & Ha & Hw & Hd);
      cbn [ResourceData.user_id ResourceData.expires ResourceData.Set_key
             ResourceData.SetId] in Hu, He;
      repeat split; assumption.
  - rewrite Update_run.
    destruct (set_Expires ParseDateTime (ResourceData.expires rd) (update_body rd))
      as [data | err]; [| intros []].
    cbv zeta.
    destruct (users.UsersTokensUpdate (Users api) (parsed_id rd) data r)
      as [[payload | err] r1];
      cbn [fst snd d exchanges]; [| intros Hin; in_log].
    intros Hin. apply Read_payload in Hin.
    + cbn [d] in Hin.
      destruct Hin as (Hn & _ & Hu & _ & Hl & He & Ha & Hw & Hd).
      repeat split; assumption.
    + cbn [exchanges]. intros Hin'. in_log.
Qed.

(** X13.  An update whose update call succeeds ends exactly as a read
    of the same resource data would, started on the remote service as
    the update call left it: same result, same resource data, same
    remote state, and a log that is the update call followed by that
    read's.  The response of the update call itself is not looked at. *)
Theorem update_is_call_then_read
    (rd : ResourceData.t DateTime) (r : Remote)
    (id : Z) (data : WritableToken.t DateTime) (payload : Token.t DateTime) :
  In (ExUpdate id data (inl payload)) (exchanges (snd (run Update rd r))) ->
  let r1 := snd (users.UsersTokensUpdate (Users api) id data r) in
  let after := run Read rd r1 in
  run Update rd r =
    (fst after,
     mkState (d (snd after)) (remote (snd after))
       (ExUpdate id data (inl payload) :: exchanges (snd after))).
Proof.
  cbv zeta. rewrite Update_run.
  destruct (set_Expires ParseDateTime (ResourceData.expires rd) (update_body rd))
    as [data0 | err]; [| intros []].
  cbv zeta.
  destruct (users.UsersTokensUpdate (Users api) (parsed_id rd) data0 r)
    as [[payload0 | err] r1] eqn:C;
    cbn [fst snd d exchanges]; [| intros Hin; in_log].
  rewrite Read_from_log. cbn [exchanges snd app].
  intros [E | Hin].
  - inversion E; subst; clear E. rewrite C. reflexivity.
  - exfalso. revert Hin.
    destruct (Read_cases (mkState rd r1 []))
      as [(t & r2 & rd' & R & _) | [(e & r2 & _ & R) | (e & r2 & _ & R)]];
      cbv zeta in R; rewrite R; cbn [snd exchanges app]; intros Hin; in_log.
Qed.

(** X14.  A create whose create call succeeds ends exactly as a read
    would, of the resource data with the new ID recorded (and the
    returned key, when there is one), started on the remote service as
    the create call left it; its log is the create call followed by that
    read's. *)
Theorem create_is_call_then_read
    (rd : ResourceData.t DateTime) (r : Remote)
    (data : WritableToken.t DateTime) (token : Token.t DateTime) :
  In (ExCreate data (inl token)) (exchanges (snd (run Create rd r))) ->
  let r1 := snd (users.UsersTokensCreate (Users api) data r) in
  let rd1 := ResourceData.SetId (strconv.FormatInt (Token.ID token)) rd in
  let rd2 :=
    if nonempty (Token.Key token)
    then ResourceData.Set_key (Token.Key token) rd1 else rd1 in
  let after := run Read rd2 r1 in
  run Create rd r =
    (fst after,
     mkState (d (snd after)) (remote (snd after))
       (ExCreate data (inl token) :: exchanges (snd after))).
Proof.
  cbv zeta. rewrite Create_run.
  destruct (set_Expires ParseDateTime (ResourceData.expires rd) (create_body rd))
    as [data0 | err]; [| intros []].
  cbv zeta.
  destruct (users.UsersTokensCreate (Users api) data0 r)
    as [[token0 | err] r1] eqn:C;
    cbn [fst snd d exchanges]; [| intros Hin; in_log].
  rewrite Read_from_log. cbn [exchanges snd app].
  intros [E | Hin].
  - inversion E; subst; clear E. rewrite C. reflexivity.
  - exfalso. revert Hin.
    match goal with |- context [read ?s1] => destruct (Read_cases s1)
      as [(t & r2 & rd' & R & _) | [(e & r2 & _ & R) | (e & r2 & _ & R)]]
    end;
      cbv zeta in R; rewrite R; cbn [snd exchanges app]; intros Hin; in_log.
Qed.

(* ----------------------------------------------------------------- *)
(** *** Update, against a service that echoes *)

Section UpdateEcho.

(** [keeps r id data]: the service, in state [r], holds under [id] the
    token that the body [data] describes. *)
Variable keeps : Remote -> Z -> WritableToken.t DateTime -> Prop.

Hypothesis update_replaces :
  forall (r : Remote) (id : Z) (old data : WritableToken.t DateTime),
    keeps r id old ->
    exists token r',
      users.UsersTokensUpdate (Users api) id data r = (inl token, r') /\
      keeps r' id data.

Hypothesis read_returns_kept :
  forall (r : Remote) (id : Z) (data : WritableToken.t DateTime),
    keeps r id data ->
    exists token r',
      users.UsersTokensRead (Users api) id r = (inl token, r') /\
      (forall uid,
          WritableToken.User data = Some uid ->
          exists user, Token.User token = Some user /\ NestedUser.ID user = uid) /\
      Token.AllowedIps token = WritableToken.AllowedIps data /\
      Token.WriteEnabled token = WritableToken.WriteEnabled data /\
      Token.Description token = WritableToken.Description data /\
      Token.Expires token = WritableToken.Expires data.

(** X15.  An update of an existing token, against a service that stores
    the body it is sent and returns it on read, returns no error and
    leaves the ID, [user_id], [allowed_ips], [write_enabled] and
    [description] as configured.  An empty [expires] stays empty; a
    configured one comes back as the string of the parsed date, which
    need not be the string that was configured. *)
Theorem update_converges
    (rd : ResourceData.t DateTime) (r : Remote) (old : WritableToken.t DateTime) :
  keeps r (parsed_id rd) old ->
  (ResourceData.expires rd = EmptyString \/
   exists t, ParseDateTime (ResourceData.expires rd) = inl t) ->
  let rd' := d (snd (run Update rd r)) in
  fst (run Update rd r) = diag.nil /\
  ResourceData.Id rd' = ResourceData.Id rd /\
  ResourceData.user_id rd' = ResourceData.user_id rd /\
  ResourceData.allowed_ips rd' = ResourceData.allowed_ips rd /\
  ResourceData.write_enabled rd' = ResourceData.write_enabled rd /\
  ResourceData.description rd' = ResourceData.description rd /\
  (ResourceData.expires rd = EmptyString -> ResourceData.expires rd' = EmptyString) /\
  (forall t,
      ResourceData.expires rd <> EmptyString ->
      ParseDateTime (ResourceData.expires rd) = inl t ->
      ResourceData.expires rd' = DateTime_String t).
Proof.
  intros Hold Hexp. cbv zeta. rewrite Update_run.
  destruct (set_Expires ParseDateTime (ResourceData.expires rd) (update_body rd))
    as [data | err] eqn:X.
  2:{ apply set_Expires_inr in X. destruct X as [Hne Herr].
      destruct Hexp as [He | [t Ht]]; congruence. }
  apply set_Expires_inl in X. cbn in X.
  destruct X as (Xu & _ & Xa & Xw & Xd & Xe).
  destruct (update_replaces r (parsed_id rd) old data Hold) as (token0 & r1 & C & Hk).
  cbv zeta. rewrite C. cbn [fst snd].
  destruct (read_returns_kept r1 (parsed_id rd) data Hk)
    as (token & r2 & E & Tu & Ta & Tw & Td & Te).
  destruct (Tu _ Xu) as (user & Huser & Huid).
  set (s1 := mkState rd r1 [ExUpdate (parsed_id rd) data (inl token0)]).
  destruct (Read_ok s1 token r2 E)
    as (rd' & -> & HId & Hu & _ & _ & He & Ha & Hw & Hd).
  cbn [fst snd d s1] in *.
  rewrite Huser in Hu. rewrite Te in He.
  repeat split; try congruence.
  - intros Hempty. destruct Xe as [[_ Xn] | [Hne _]]; [| contradiction].
    rewrite Xn in He. congruence.
  - intros t Hne Ht. destruct Xe as [[Hempty _] | [_ (t' & Ht' & Xs)]];
      [contradiction |].
    rewrite Xs in He. congruence.
Qed.

End UpdateEcho.

End Lifecycle.

(* ================================================================= *)
(** * The theorems on concrete runs *)

Section Runs.

Local Open Scope string_scope.

(** A read of token 3 from a service that holds nothing. *)
Lemma not_found_clears_state_witness :
  let out := fake.run fake.api Read (fake.in_state "3" fake.key_v1) fake.empty in
  In (ExRead 3 (inr (UsersTokensReadDefault 404))) (exchanges (snd out)) /\
  fst out = diag.nil /\
  ResourceData.Id (d (snd out)) = EmptyString.
Proof.
  cbv zeta.
  assert (Hin : In (ExRead 3 (inr (UsersTokensReadDefault 404)))
                  (exchanges (snd (fake.run fake.api Read
                                     (fake.in_state "3" fake.key_v1) fake.empty))))
    by (vm_compute; left; reflexivity).
  split; [exact Hin |].
  exact (not_found_clears_state fake.ParseDateTime fake.DateTime_String fake.api
           Read _ _ _ (or_introl eq_refl) Hin eq_refl).
Defined.

(** A create against a service that is down. *)
Lemma remote_errors_surface_witness :
  let out := fake.run fake.api_down Create (fake.planned fake.key_v1 EmptyString) fake.empty in
  In (ExCreate (fake.body fake.key_v1) (inr fake.down)) (exchanges (snd out)) /\
  fst out = diag.FromErr fake.down.
Proof.
  cbv zeta.
  assert (Hin : In (ExCreate (fake.body fake.key_v1) (inr fake.down))
                  (exchanges (snd (fake.run fake.api_down Create
                                     (fake.planned fake.key_v1 EmptyString) fake.empty))))
    by (vm_compute; left; reflexivity).
  split; [exact Hin |].
  exact (remote_errors_surface fake.ParseDateTime fake.DateTime_String fake.api_down
           Create _ _ _ _ Hin eq_refl eq_refl).
Defined.

(** C3 fails on a create whose read-back is answered with not found: the
    read call of the create fails with a 404, and the create returns no
    error at all. *)
Lemma create_swallows_read_back_not_found :
  let out :=
    fake.run fake.api_gone Create (fake.planned fake.key_v1 EmptyString) fake.empty in
  let e := ExRead 1 (inr (UsersTokensReadDefault 404)) in
  In e (exchanges (snd out)) /\
  response_error e = Some (UsersTokensReadDefault 404) /\
  fst out = diag.nil /\
  fst out <> diag.FromErr (UsersTokensReadDefault 404).
Proof.
  cbv zeta. split; [vm_compute; right; left; reflexivity |].
  split; [reflexivity |].
  split; [vm_compute; reflexivity |].
  vm_compute. discriminate.
Qed.

(** C4 fails on a plain create: the callback returns no error after two
    exchanges, the create call and the read that follows it. *)
Lemma create_takes_two_exchanges :
  let out := fake.run fake.api Create (fake.planned fake.key_v1 EmptyString) fake.empty in
  fst out = diag.nil /\
  exchanges (snd out) =
    [ExCreate (fake.body fake.key_v1) (inl (fake.stored (fake.body fake.key_v1) 1));
     ExRead 1 (inl (fake.stored (fake.body fake.key_v1) 1))] /\
  length (exchanges (snd out)) <> 1%nat.
Proof.
  cbv zeta. split; [reflexivity |]. split; [reflexivity |].
  vm_compute. discriminate.
Qed.

(** C5 fails on a v2 token: local state holds the key [nbt_4f9a], and the
    body of the update has no key. *)
Lemma update_omits_v2_key :
  let rd := fake.in_state "7" fake.key_v2 in
  let out := fake.run fake.api Update rd fake.holding7 in
  exists res,
    In (ExUpdate 7 (fake.body EmptyString) res) (exchanges (snd out)) /\
    ResourceData.key rd = "nbt_4f9a" /\
    WritableToken.Key (fake.body EmptyString) <> ResourceData.key rd.
Proof.
  cbv zeta. eexists. split; [vm_compute; left; reflexivity |].
  split; [reflexivity | discriminate].
Qed.

(** An update of a v2 token. *)
Lemma update_sends_full_object_witness :
  let rd := fake.in_state "7" fake.key_v2 in
  let out := fake.run fake.api Update rd fake.holding7 in
  let data := fake.body EmptyString in
  let res := inl (fake.stored data 7) in
  In (ExUpdate 7 data res) (exchanges (snd out)) /\
  WritableToken.User data = Some (ResourceData.user_id rd) /\
  WritableToken.AllowedIps data = ResourceData.allowed_ips rd /\
  WritableToken.Description data = ResourceData.description rd.
Proof.
  cbv zeta.
  assert (Hin : In (ExUpdate 7 (fake.body EmptyString)
                      (inl (fake.stored (fake.body EmptyString) 7)))
                  (exchanges (snd (fake.run fake.api Update
                                     (fake.in_state "7" fake.key_v2) fake.holding7))))
    by (vm_compute; left; reflexivity).
  split; [exact Hin |].
  destruct (update_sends_full_object fake.ParseDateTime fake.DateTime_String fake.api
              _ _ _ _ _ Hin) as (Hu & Hips & _ & Hd & _).
  auto.
Defined.

(** An update of a v1 token: the key goes out. *)
Lemma update_key_only_v1_witness :
  let rd := fake.in_state "7" fake.key_v1 in
  let out := fake.run fake.api Update rd fake.holding7 in
  let data := fake.body fake.key_v1 in
  In (ExUpdate 7 data (inl (fake.stored data 7))) (exchanges (snd out)) /\
  (WritableToken.Key data <> EmptyString <->
   ResourceData.key rd <> EmptyString /\ len (ResourceData.key rd) = 40).
Proof.
  cbv zeta.
  assert (Hin : In (ExUpdate 7 (fake.body fake.key_v1)
                      (inl (fake.stored (fake.body fake.key_v1) 7)))
                  (exchanges (snd (fake.run fake.api Update
                                     (fake.in_state "7" fake.key_v1) fake.holding7))))
    by (vm_compute; left; reflexivity).
  split; [exact Hin |].
  exact (proj1 (update_key_only_v1 fake.ParseDateTime fake.DateTime_String fake.api
                  _ _ _ _ _ Hin)).
Defined.

(** C6 fails on the key: the service does not reveal the key of token 7,
    and after the read the local key is still the one held before. *)
Lemma read_keeps_key_on_empty :
  let rd := fake.in_state "7" "secret" in
  let out := fake.run fake.api Read rd fake.holding7 in
  fst out = diag.nil /\
  In (ExRead 7 (inl fake.token7)) (exchanges (snd out)) /\
  ResourceData.key (d (snd out)) = "secret" /\
  Token.Key fake.token7 = EmptyString /\
  ResourceData.key (d (snd out)) <> Token.Key fake.token7.
Proof.
  cbv zeta. split; [reflexivity |].
  split; [vm_compute; left; reflexivity |].
  split; [reflexivity |]. split; [reflexivity |].
  vm_compute. discriminate.
Qed.

(** A read of token 7. *)
Lemma read_reflects_remote_witness :
  let rd := fake.in_state "7" "secret" in
  let out := fake.run fake.api Read rd fake.holding7 in
  In (ExRead 7 (inl fake.token7)) (exchanges (snd out)) /\
  ResourceData.description (d (snd out)) = Token.Description fake.token7 /\
  ResourceData.allowed_ips (d (snd out)) = Token.AllowedIps fake.token7.
Proof.
  cbv zeta.
  assert (Hin : In (ExRead 7 (inl fake.token7))
                  (exchanges (snd (fake.run fake.api Read
                                     (fake.in_state "7" "secret") fake.holding7))))
    by (vm_compute; left; reflexivity).
  split; [exact Hin |].
  destruct (read_reflects_remote fake.ParseDateTime fake.DateTime_String fake.api
              _ _ _ _ Hin) as (_ & Hips & _ & Hd & _).
  auto.
Defined.

(** C7 fails when the token is gone by the time create reads it back:
    the create call returned ID 1, create returns no error, and the
    resource ID is empty. *)
Lemma create_then_gone_clears_id :
  let out :=
    fake.run fake.api_gone Create (fake.planned fake.key_v1 EmptyString) fake.empty in
  let token := fake.stored (fake.body fake.key_v1) 1 in
  fst out = diag.nil /\
  In (ExCreate (fake.body fake.key_v1) (inl token)) (exchanges (snd out)) /\
  strconv.FormatInt (Token.ID token) = "1" /\
  ResourceData.Id (d (snd out)) = EmptyString /\
  ResourceData.Id (d (snd out)) <> strconv.FormatInt (Token.ID token).
Proof.
  cbv zeta. split; [reflexivity |].
  split; [vm_compute; left; reflexivity |].
  split; [reflexivity |]. split; [reflexivity |].
  vm_compute. discriminate.
Qed.

(** A create that is read back. *)
Lemma create_sets_id_witness :
  let out :=
    invoke fake.ParseDateTime fake.DateTime_String fake.api Create
      (fake.planned fake.key_v1 EmptyString) fake.empty in
  let data := fake.body fake.key_v1 in
  In (ExCreate data (inl (fake.stored data 1))) (exchanges (snd out)) /\
  ResourceData.Id (d (snd out)) = "1".
Proof.
  cbv zeta.
  assert (Hin : In (ExCreate (fake.body fake.key_v1)
                      (inl (fake.stored (fake.body fake.key_v1) 1)))
                  (exchanges
                     (snd (invoke fake.ParseDateTime fake.DateTime_String fake.api
                             Create (fake.planned fake.key_v1 EmptyString)
                             fake.empty))))
    by (vm_compute; left; reflexivity).
  split; [exact Hin |].
  destruct (create_sets_id fake.ParseDateTime fake.DateTime_String fake.api
              _ _ _ _ Hin) as (HId & _).
  rewrite HId. vm_compute. reflexivity.
Defined.

(** A read that finds no key in the payload keeps the configured one. *)
Lemma key_kept_unless_returned_witness :
  let rd := fake.in_state "7" "secret" in
  let out := fake.run fake.api Read rd fake.holding7 in
  ResourceData.key rd <> EmptyString /\
  ResourceData.key (d (snd out)) <> EmptyString.
Proof.
  cbv zeta.
  assert (Hk : ResourceData.key (fake.in_state "7" "secret") <> EmptyString)
    by discriminate.
  split; [exact Hk |].
  exact (proj2 (proj2 (key_kept_unless_returned fake.ParseDateTime
                         fake.DateTime_String fake.api Read _ fake.holding7)) Hk).
Defined.

(** C10 fails on an ID that is a decimal integer out of range:
    [ParseInt] returns an error, and the read goes on with the largest
    [int64], not with 0. *)
Lemma read_with_out_of_range_id :
  let rd := fake.in_state "99999999999999999999" fake.key_v1 in
  let out := fake.run fake.api Read rd fake.holding7 in
  snd (strconv.ParseInt (ResourceData.Id rd)) = Some strconv.ErrRange /\
  exchanges (snd out) =
    [ExRead 9223372036854775807 (inr (UsersTokensReadDefault 404))] /\
  ~ (forall e, In e (exchanges (snd out)) -> request_id e = Some 0).
Proof.
  cbv zeta. split; [reflexivity |]. split; [reflexivity |].
  intros H.
  specialize (H (ExRead 9223372036854775807 (inr (UsersTokensReadDefault 404)))).
  assert (Hin : In (ExRead 9223372036854775807 (inr (UsersTokensReadDefault 404)))
                  (exchanges (snd (fake.run fake.api Read
                     (fake.in_state "99999999999999999999" fake.key_v1)
                     fake.holding7))))
    by (vm_compute; left; reflexivity).
  specialize (H Hin). discriminate H.
Qed.

(** A delete under an ID that is no number. *)
Lemma unparseable_id_proceeds_witness :
  let rd := fake.in_state "seven" fake.key_v1 in
  let out := fake.run fake.api Delete rd fake.holding7 in
  snd (strconv.ParseInt (ResourceData.Id rd)) = Some strconv.ErrSyntax /\
  (forall e, In e (exchanges (snd out)) ->
             request_id e = Some (fst (strconv.ParseInt (ResourceData.Id rd)))) /\
  fst (strconv.ParseInt (ResourceData.Id rd)) = 0.
Proof.
  cbv zeta.
  assert (Hop : Delete <> Create) by discriminate.
  assert (Hn : snd (strconv.ParseInt (ResourceData.Id (fake.in_state "seven" fake.key_v1)))
               = Some strconv.ErrSyntax) by reflexivity.
  split; [exact Hn |].
  destruct (unparseable_id_proceeds fake.ParseDateTime fake.DateTime_String fake.api
              Delete (fake.in_state "seven" fake.key_v1) fake.holding7
              strconv.ErrSyntax Hop Hn) as (Hids & Hval & _).
  split; [exact Hids | exact Hval].
Defined.

(** The in-memory service echoes back what it stored. *)
Lemma fake_int64_range (x : Z) : - 2 ^ 63 <= strconv.int64 x < 2 ^ 63.
Proof.
  unfold strconv.int64.
  rewrite strconv_facts.pow63, strconv_facts.pow64.
  pose proof (Z.mod_pos_bound (x + 9223372036854775808) 18446744073709551616
                ltac:(lia)).
  lia.
Qed.

Lemma fake_create_stores (data : WritableToken.t fake.DateTime) (nb : fake.Netbox) :
  exists token nb',
    users.UsersTokensCreate (Users fake.api) data nb = (inl token, nb') /\
    - 2 ^ 63 <= Token.ID token < 2 ^ 63 /\
    forall uid,
      WritableToken.User data = Some uid ->
      fake.holds nb' (Token.ID token) uid (WritableToken.Description data).
Proof.
  do 2 eexists. split; [reflexivity |]. split.
  - cbn. apply fake_int64_range.
  - intros uid Hu. eexists. cbn. unfold fake.has_id. cbn.
    rewrite Z.eqb_refl. split; [reflexivity |]. cbn. rewrite Hu. auto.
Qed.

Lemma fake_read_echoes (nb : fake.Netbox) (id uid : Z) (desc : string) :
  fake.holds nb id uid desc ->
  exists token nb',
    users.UsersTokensRead (Users fake.api) id nb = (inl token, nb') /\
    fake.holds nb' id uid desc /\
    (exists user, Token.User token = Some user /\ NestedUser.ID user = uid) /\
    Token.Description token = desc.
Proof.
  intros (t & Hfind & Huser & Hdesc).
  exists t, nb. cbn. unfold fake.read. rewrite Hfind.
  split; [reflexivity |]. split; [exists t; auto |].
  split; [| assumption]. eexists. split; [eassumption | reflexivity].
Qed.

(** A create followed by a read, against the in-memory service. *)
Lemma create_then_read_echoes_witness :
  let rd := fake.planned fake.key_v1 "2031-01-01T00:00:00Z" in
  let created := fake.run fake.api Create rd fake.empty in
  let reread := fake.run fake.api Read (d (snd created)) (remote (snd created)) in
  (ResourceData.expires rd = EmptyString \/
   exists t, fake.ParseDateTime (ResourceData.expires rd) = inl t) /\
  fst created = diag.nil /\
  ResourceData.user_id (d (snd created)) = 5 /\
  ResourceData.description (d (snd created)) = "ci token" /\
  fst reread = diag.nil /\
  ResourceData.user_id (d (snd reread)) = 5 /\
  ResourceData.description (d (snd reread)) = "ci token".
Proof.
  cbv zeta.
  assert (Hexp :
            ResourceData.expires (fake.planned fake.key_v1 "2031-01-01T00:00:00Z")
              = EmptyString \/
            exists t,
              fake.ParseDateTime
                (ResourceData.expires (fake.planned fake.key_v1 "2031-01-01T00:00:00Z"))
                = inl t)
    by (right; eexists; reflexivity).
  split; [exact Hexp |].
  exact (create_then_read_echoes fake.ParseDateTime fake.DateTime_String fake.api
           fake.holds fake_create_stores fake_read_echoes
           (fake.planned fake.key_v1 "2031-01-01T00:00:00Z") fake.empty Hexp).
Defined.

End Runs.

(* ================================================================= *)
(** * Further concrete runs *)

Section MoreRuns.

Local Open Scope string_scope.

Abbreviation run_on a := (invoke fake.ParseDateTime fake.DateTime_String a).

(** A delete of token 7, which the service holds. *)
Lemma delete_clears_only_id_witness :
  let rd := fake.in_state "7" fake.key_v1 in
  let out := run_on fake.api Delete rd fake.holding7 in
  fst out = diag.nil /\
  d (snd out) = fake.in_state EmptyString fake.key_v1.
Proof.
  cbv zeta.
  assert (Hnil : fst (run_on fake.api Delete (fake.in_state "7" fake.key_v1)
                        fake.holding7) = diag.nil) by (vm_compute; reflexivity).
  split; [exact Hnil |].
  exact (delete_clears_only_id fake.ParseDateTime fake.DateTime_String fake.api
           _ _ Hnil).
Defined.

(** A read of token 3, which the service does not hold. *)
Lemma not_found_keeps_attributes_witness :
  let rd := fake.in_state "3" fake.key_v1 in
  let out := run_on fake.api Read rd fake.empty in
  existsb not_found (exchanges (snd out)) = true /\
  fst out = diag.nil /\
  d (snd out) = fake.in_state EmptyString fake.key_v1.
Proof.
  cbv zeta.
  assert (Hnf : existsb not_found
                  (exchanges (snd (run_on fake.api Read
                                     (fake.in_state "3" fake.key_v1) fake.empty)))
                = true) by (vm_compute; reflexivity).
  split; [exact Hnf |].
  exact (not_found_keeps_attributes fake.ParseDateTime fake.DateTime_String fake.api
           Read _ _ (or_introl eq_refl) Hnf).
Defined.

(** An update against a service that is down. *)
Lemma error_leaves_resource_data_witness :
  let rd := fake.in_state "7" fake.key_v1 in
  let out := run_on fake.api_down Update rd fake.holding7 in
  fst out = diag.FromErr fake.down /\
  d (snd out) = rd.
Proof.
  cbv zeta.
  assert (Herr : fst (run_on fake.api_down Update (fake.in_state "7" fake.key_v1)
                        fake.holding7) = diag.FromErr fake.down) by (vm_compute; reflexivity).
  split; [exact Herr |].
  apply (error_leaves_resource_data fake.ParseDateTime fake.DateTime_String
           fake.api_down Update _ _ _ Herr).
  intros data token Hin. vm_compute in Hin.
  destruct Hin as [Hin | []]. discriminate Hin.
Defined.

(** A create that is read back: its first exchange succeeded. *)
Lemma stops_at_first_failure_witness :
  let out := run_on fake.api Create (fake.planned fake.key_v1 EmptyString) fake.empty in
  let e := ExCreate (fake.body fake.key_v1) (inl (fake.stored (fake.body fake.key_v1) 1)) in
  In e (removelast (exchanges (snd out))) /\
  response_error e = None.
Proof.
  cbv zeta.
  assert (Hin : In (ExCreate (fake.body fake.key_v1)
                      (inl (fake.stored (fake.body fake.key_v1) 1)))
                  (removelast
                     (exchanges (snd (run_on fake.api Create
                        (fake.planned fake.key_v1 EmptyString) fake.empty)))))
    by (vm_compute; left; reflexivity).
  split; [exact Hin |].
  exact (stops_at_first_failure fake.ParseDateTime fake.DateTime_String fake.api
           Create _ _ _ Hin).
Defined.

(** A delete against a service that is down. *)
Lemma error_provenance_witness :
  let rd := fake.in_state "7" fake.key_v1 in
  let out := run_on fake.api_down Delete rd fake.holding7 in
  fst out = diag.FromErr fake.down /\
  ((exchanges (snd out) = [] /\
    remote (snd out) = fake.holding7 /\
    ResourceData.expires rd <> EmptyString /\
    fake.ParseDateTime (ResourceData.expires rd) = inr fake.down) \/
   (exists before e,
       exchanges (snd out) = (before ++ [e])%list /\
       response_error e = Some fake.down /\
       not_found e = false)).
Proof.
  cbv zeta.
  assert (Herr : fst (run_on fake.api_down Delete (fake.in_state "7" fake.key_v1)
                        fake.holding7) = diag.FromErr fake.down) by (vm_compute; reflexivity).
  split; [exact Herr |].
  exact (error_provenance fake.ParseDateTime fake.DateTime_String fake.api_down
           Delete _ _ _ Herr).
Defined.

(** A create whose expiration is the one string the parser refuses. *)
Lemma unparsed_expiration_stops_before_call_witness :
  let rd := fake.planned fake.key_v1 "tomorrow" in
  ResourceData.expires rd <> EmptyString /\
  fake.ParseDateTime (ResourceData.expires rd) = inr (errorString "parsing time") /\
  run_on fake.api Create rd fake.empty =
    (diag.FromErr (errorString "parsing time"), mkState rd fake.empty []).
Proof.
  cbv zeta.
  assert (Hne : ResourceData.expires (fake.planned fake.key_v1 "tomorrow")
                <> EmptyString) by discriminate.
  assert (Herr : fake.ParseDateTime
                   (ResourceData.expires (fake.planned fake.key_v1 "tomorrow"))
                 = inr (errorString "parsing time")) by (vm_compute; reflexivity).
  split; [exact Hne |]. split; [exact Herr |].
  exact (unparsed_expiration_stops_before_call fake.ParseDateTime
           fake.DateTime_String fake.api Create _ fake.empty _
           (or_introl eq_refl) Hne Herr).
Defined.

(** A create with an expiration. *)
Lemma create_sends_configuration_witness :
  let rd := fake.planned fake.key_v2 "2031-01-01T00:00:00Z" in
  let out := run_on fake.api Create rd fake.empty in
  let data :=
    WritableToken.with_Expires (Some "2031-01-01T00:00:00Z") (fake.body fake.key_v2) in
  In (ExCreate data (inl (fake.stored data 1))) (exchanges (snd out)) /\
  WritableToken.User data = Some (ResourceData.user_id rd) /\
  WritableToken.Key data = ResourceData.key rd /\
  WritableToken.AllowedIps data = ResourceData.allowed_ips rd.
Proof.
  cbv zeta.
  assert (Hin : In (ExCreate
                      (WritableToken.with_Expires (Some "2031-01-01T00:00:00Z")
                         (fake.body fake.key_v2))
                      (inl (fake.stored
                              (WritableToken.with_Expires (Some "2031-01-01T00:00:00Z")
                                 (fake.body fake.key_v2)) 1)))
                  (exchanges (snd (run_on fake.api Create
                     (fake.planned fake.key_v2 "2031-01-01T00:00:00Z") fake.empty))))
    by (vm_compute; left; reflexivity).
  split; [exact Hin |].
  destruct (create_sends_configuration fake.ParseDateTime fake.DateTime_String
              fake.api _ _ _ _ Hin) as (Hu & Hk & Ha & _).
  exact (conj Hu (conj Hk Ha)).
Defined.

(** A create that is read back under the ID it was given. *)
Lemma create_reads_back_created_token_witness :
  let out := run_on fake.api Create (fake.planned fake.key_v1 EmptyString) fake.empty in
  let data := fake.body fake.key_v1 in
  let token := fake.stored data 1 in
  In (ExCreate data (inl token)) (exchanges (snd out)) /\
  - 2 ^ 63 <= Token.ID token < 2 ^ 63 /\
  exists res,
    exchanges (snd out) = [ExCreate data (inl token); ExRead (Token.ID token) res].
Proof.
  cbv zeta.
  assert (Hin : In (ExCreate (fake.body fake.key_v1)
                      (inl (fake.stored (fake.body fake.key_v1) 1)))
                  (exchanges (snd (run_on fake.api Create
                     (fake.planned fake.key_v1 EmptyString) fake.empty))))
    by (vm_compute; left; reflexivity).
  assert (Hid : - 2 ^ 63 <= Token.ID (fake.stored (fake.body fake.key_v1) 1) < 2 ^ 63)
    by (cbn; lia).
  split; [exact Hin |]. split; [exact Hid |].
  exact (create_reads_back_created_token fake.ParseDateTime fake.DateTime_String
           fake.api _ _ _ _ Hin Hid).
Defined.

(** A delete of the token recorded as number 7. *)
Lemma stored_id_addresses_token_witness :
  let rd := fake.in_state "7" fake.key_v1 in
  let out := run_on fake.api Delete rd fake.holding7 in
  ResourceData.Id rd = strconv.FormatInt 7 /\
  (forall e, In e (exchanges (snd out)) -> request_id e = Some 7) /\
  (Delete <> Update -> exchanges (snd out) <> []).
Proof.
  cbv zeta.
  assert (Hop : Delete <> Create) by discriminate.
  assert (Hi : - 2 ^ 63 <= 7 < 2 ^ 63) by lia.
  assert (HId : ResourceData.Id (fake.in_state "7" fake.key_v1) = strconv.FormatInt 7)
    by (vm_compute; reflexivity).
  split; [exact HId |].
  exact (stored_id_addresses_token fake.ParseDateTime fake.DateTime_String fake.api
           Delete _ fake.holding7 7 Hop Hi HId).
Defined.

(** A read of token 7, which the service holds. *)
Lemma id_kept_unless_not_found_witness :
  let rd := fake.in_state "7" fake.key_v1 in
  let out := run_on fake.api Read rd fake.holding7 in
  existsb not_found (exchanges (snd out)) = false /\
  ResourceData.Id (d (snd out)) = "7".
Proof.
  cbv zeta.
  assert (Hnf : existsb not_found
                  (exchanges (snd (run_on fake.api Read
                                     (fake.in_state "7" fake.key_v1) fake.holding7)))
                = false) by (vm_compute; reflexivity).
  split; [exact Hnf |].
  exact (id_kept_unless_not_found fake.ParseDateTime fake.DateTime_String fake.api
           Read _ _ (or_introl eq_refl) Hnf).
Defined.

(** Two reads of token 7 in a row. *)
Lemma read_twice_same_payload_witness :
  let rd := fake.in_state "7" "secret" in
  let first := run_on fake.api Read rd fake.holding7 in
  let second := run_on fake.api Read (d (snd first)) (remote (snd first)) in
  In (ExRead 7 (inl fake.token7)) (exchanges (snd first)) /\
  In (ExRead 7 (inl fake.token7)) (exchanges (snd second)) /\
  fst second = diag.nil /\
  d (snd second) = d (snd first).
Proof.
  cbv zeta.
  assert (H1 : In (ExRead 7 (inl fake.token7))
                 (exchanges (snd (run_on fake.api Read
                                    (fake.in_state "7" "secret") fake.holding7))))
    by (vm_compute; left; reflexivity).
  assert (H2 : In (ExRead 7 (inl fake.token7))
                 (exchanges (snd (run_on fake.api Read
                    (d (snd (run_on fake.api Read
                               (fake.in_state "7" "secret") fake.holding7)))
                    (remote (snd (run_on fake.api Read
                                    (fake.in_state "7" "secret") fake.holding7)))))))
    by (vm_compute; left; reflexivity).
  split; [exact H1 |]. split; [exact H2 |].
  exact (read_twice_same_payload fake.ParseDateTime fake.DateTime_String fake.api
           _ _ _ _ _ _ H1 H2).
Defined.

(** An update of token 7: the description comes back as sent. *)
Lemma write_ends_in_remote_state_witness :
  let rd := fake.in_state "7" fake.key_v1 in
  let out := run_on fake.api Update rd fake.holding7 in
  let token := fake.stored (fake.body fake.key_v1) 7 in
  In (ExRead 7 (inl token)) (exchanges (snd out)) /\
  fst out = diag.nil /\
  ResourceData.description (d (snd out)) = Token.Description token.
Proof.
  cbv zeta.
  assert (Hin : In (ExRead 7 (inl (fake.stored (fake.body fake.key_v1) 7)))
                  (exchanges (snd (run_on fake.api Update
                                     (fake.in_state "7" fake.key_v1) fake.holding7))))
    by (vm_compute; right; left; reflexivity).
  split; [exact Hin |].
  destruct (write_ends_in_remote_state fake.ParseDateTime fake.DateTime_String
              fake.api Update _ _ _ _ (or_intror eq_refl) Hin)
    as (Hn & _ & _ & Hd & _).
  exact (conj Hn Hd).
Defined.

(** An update of token 7, call and read. *)
Lemma update_is_call_then_read_witness :
  let rd := fake.in_state "7" fake.key_v1 in
  let data := fake.body fake.key_v1 in
  let payload := fake.stored data 7 in
  let r1 := snd (users.UsersTokensUpdate (Users fake.api) 7 data fake.holding7) in
  let after := run_on fake.api Read rd r1 in
  In (ExUpdate 7 data (inl payload))
     (exchanges (snd (run_on fake.api Update rd fake.holding7))) /\
  run_on fake.api Update rd fake.holding7 =
    (fst after,
     mkState (d (snd after)) (remote (snd after))
       (ExUpdate 7 data (inl payload) :: exchanges (snd after))).
Proof.
  cbv zeta.
  assert (Hin : In (ExUpdate 7 (fake.body fake.key_v1)
                      (inl (fake.stored (fake.body fake.key_v1) 7)))
                  (exchanges (snd (run_on fake.api Update
                                     (fake.in_state "7" fake.key_v1) fake.holding7))))
    by (vm_compute; left; reflexivity).
  split; [exact Hin |].
  exact (update_is_call_then_read fake.ParseDateTime fake.DateTime_String fake.api
           _ _ _ _ _ Hin).
Defined.

(** A create, call and read. *)
Lemma create_is_call_then_read_witness :
  let rd := fake.planned fake.key_v2 EmptyString in
  let data := fake.body fake.key_v2 in
  let token := fake.stored data 1 in
  In (ExCreate data (inl token))
     (exchanges (snd (run_on fake.api Create rd fake.empty))) /\
  fst (run_on fake.api Create rd fake.empty) = diag.nil /\
  ResourceData.Id (d (snd (run_on fake.api Create rd fake.empty))) = "1".
Proof.
  cbv zeta.
  assert (Hin : In (ExCreate (fake.body fake.key_v2)
                      (inl (fake.stored (fake.body fake.key_v2) 1)))
                  (exchanges (snd (run_on fake.api Create
                     (fake.planned fake.key_v2 EmptyString) fake.empty))))
    by (vm_compute; left; reflexivity).
  split; [exact Hin |].
  rewrite (create_is_call_then_read fake.ParseDateTime fake.DateTime_String fake.api
             _ _ _ _ Hin).
  split; vm_compute; reflexivity.
Defined.

(** The in-memory service replaces a token on update and returns what it
    keeps on read. *)
Lemma fake_update_replaces
    (nb : fake.Netbox) (id : Z) (old data : WritableToken.t fake.DateTime) :
  fake.keeps nb id old ->
  exists token nb',
    users.UsersTokensUpdate (Users fake.api) id data nb = (inl token, nb') /\
    fake.keeps nb' id data.
Proof.
  unfold fake.keeps. intros Hold. cbn. unfold fake.update. rewrite Hold.
  do 2 eexists. split; [reflexivity |].
  cbn. unfold fake.has_id at 1. cbn. rewrite Z.eqb_refl. reflexivity.
Qed.

Lemma fake_read_returns_kept
    (nb : fake.Netbox) (id : Z) (data : WritableToken.t fake.DateTime) :
  fake.keeps nb id data ->
  exists token nb',
    users.UsersTokensRead (Users fake.api) id nb = (inl token, nb') /\
    (forall uid,
        WritableToken.User data = Some uid ->
        exists user, Token.User token = Some user /\ NestedUser.ID user = uid) /\
    Token.AllowedIps token = WritableToken.AllowedIps data /\
    Token.WriteEnabled token = WritableToken.WriteEnabled data /\
    Token.Description token = WritableToken.Description data /\
    Token.Expires token = WritableToken.Expires data.
Proof.
  unfold fake.keeps. intros Hk. cbn. unfold fake.read. rewrite Hk.
  do 2 eexists. split; [reflexivity |]. cbn.
  split; [| auto].
  intros uid Hu. rewrite Hu. cbn. eexists. split; reflexivity.
Qed.

(** An update of token 7 against the in-memory service. *)
Lemma update_converges_witness :
  let rd := fake.in_state "7" fake.key_v1 in
  let out := run_on fake.api Update rd fake.holding7 in
  fake.keeps fake.holding7 7 fake.body7 /\
  fst out = diag.nil /\
  ResourceData.Id (d (snd out)) = "7" /\
  ResourceData.description (d (snd out)) = "ci token".
Proof.
  cbv zeta.
  assert (Hk : fake.keeps fake.holding7
                 (fst (strconv.ParseInt
                         (ResourceData.Id (fake.in_state "7" fake.key_v1))))
                 fake.body7) by (vm_compute; reflexivity).
  assert (Hexp : ResourceData.expires (fake.in_state "7" fake.key_v1) = EmptyString \/
                 exists t, fake.ParseDateTime
                             (ResourceData.expires (fake.in_state "7" fake.key_v1))
                           = inl t) by (left; reflexivity).
  split; [exact Hk |].
  destruct (update_converges fake.ParseDateTime fake.DateTime_String fake.api
              fake.keeps fake_update_replaces fake_read_returns_kept
              (fake.in_state "7" fake.key_v1) fake.holding7 fake.body7 Hk Hexp)
    as (Hn & HId & _ & _ & _ & Hd & _).
  exact (conj Hn (conj HId Hd)).
Defined.

End MoreRuns.
